(** * MetaForge CTF header parser: a shallow embedding of
    [src/metaforge/parsers/ctf_parser.py] and the properties of its
    header / phase-table pass.

    Text is modelled as [string], a character being a code point below
    256; Python integers are [Z]; Python floats are IEEE-754
    binary64 values, represented by [spec_float] with precision 53 and
    maximal exponent 1024; exceptions are an explicit error type threaded
    through a small result monad. *)

From Stdlib Require Import ZArith Ascii String List Bool Lia.
From Stdlib Require Import Floats.SpecFloat.
From stdpp Require Import base tactics option list strings gmap.

Local Open Scope string_scope.
Local Open Scope Z_scope.

(** ** Exceptions and the result monad *)

(** The exceptions the parser can raise: all come from built-ins
    ([int], [float], list subscript, [next], the enum constructor). *)
Inductive exn : Type :=
  | ValueError
  | IndexError
  | OverflowError
  | StopIteration
  | KeyError
  | AttributeError.

Inductive result (A : Type) : Type :=
  | Ok (a : A)
  | Raise (e : exn).
Arguments Ok {A} a.
Arguments Raise {A} e.

Global Instance result_ret : MRet result := fun A a => Ok a.
Global Instance result_bind : MBind result := fun A B f m =>
  match m with
  | Ok a => f a
  | Raise e => Raise e
  end.

Definition raises {A} (m : result A) : Prop := exists e, m = Raise e.
Definition returns {A} (m : result A) : Prop := exists a, m = Ok a.

(** ** Python string built-ins used by the parser *)

Module Py.

Definition TAB : ascii := "009"%char.

(** [str.isspace] on the code points below 256: 0x09-0x0D, 0x1C-0x20,
    0x85 and 0xA0. *)
Definition isspace (c : ascii) : bool :=
  let n := N_of_ascii c in
  (((9 <=? n) && (n <=? 13)) || ((28 <=? n) && (n <=? 32))
   || (n =? 133) || (n =? 160))%N.

(** The whitespace that [int] and [float] skip around a literal: unlike
    [str.strip] they do not skip the separators 0x1C-0x1F. *)
Definition isspace_literal (c : ascii) : bool :=
  let n := N_of_ascii c in
  (((9 <=? n) && (n <=? 13)) || (n =? 32) || (n =? 133) || (n =? 160))%N.

Definition isdigit (c : ascii) : bool :=
  let n := N_of_ascii c in ((48 <=? n) && (n <=? 57))%N.

Definition digit_value (c : ascii) : Z := Z.of_N (N_of_ascii c) - 48.

Fixpoint lstrip_with (sp : ascii -> bool) (s : string) : string :=
  match s with
  | String c s' => if sp c then lstrip_with sp s' else s
  | EmptyString => EmptyString
  end.

Fixpoint rstrip_with (sp : ascii -> bool) (s : string) : string :=
  match s with
  | EmptyString => EmptyString
  | String c s' =>
      match rstrip_with sp s' with
      | EmptyString => if sp c then EmptyString else String c EmptyString
      | r => String c r
      end
  end.

(** [s.strip()] *)
Definition strip (s : string) : string :=
  rstrip_with isspace (lstrip_with isspace s).

(** The text of a numeric literal without the whitespace around it. *)
Definition strip_literal (s : string) : string :=
  rstrip_with isspace_literal (lstrip_with isspace_literal s).

(** [s.split(sep)] for a one-character separator; the result is never
    empty ([''.split(sep) == ['']]). *)
Fixpoint split (sep : ascii) (s : string) : list string :=
  match s with
  | EmptyString => [EmptyString]
  | String c s' =>
      if Ascii.eqb c sep then EmptyString :: split sep s'
      else match split sep s' with
           | t :: ts => String c t :: ts
           | [] => [String c EmptyString]
           end
  end.

(** [sep.join(l)] *)
Fixpoint join (sep : string) (l : list string) : string :=
  match l with
  | [] => EmptyString
  | [x] => x
  | x :: l' => x ++ sep ++ join sep l'
  end.

(** [s.startswith(p)] *)
Fixpoint startswith (s p : string) {struct p} : bool :=
  match p with
  | EmptyString => true
  | String a p' =>
      match s with
      | String b s' => Ascii.eqb a b && startswith s' p'
      | EmptyString => false
      end
  end.

(** [s.replace(a, b)] for one-character [a] and [b]. *)
Fixpoint replace (a b : ascii) (s : string) : string :=
  match s with
  | EmptyString => EmptyString
  | String c s' => String (if Ascii.eqb c a then b else c) (replace a b s')
  end.

(** The slice [s[n:]] for [n >= 0]. *)
Fixpoint slice_from (n : nat) (s : string) : string :=
  match n, s with
  | O, _ => s
  | S n', String _ s' => slice_from n' s'
  | S _, EmptyString => EmptyString
  end.

(** The subscript [l[i]] for a literal [i >= 0]. *)
Definition index {A} (l : list A) (i : nat) : result A :=
  match l !! i with
  | Some x => Ok x
  | None => Raise IndexError
  end.

(** The subscript [l[k]] for an arbitrary integer [k]: negative subscripts
    count from the end. *)
Definition getitem {A} (l : list A) (k : Z) : result A :=
  let n := Z.of_nat (length l) in
  if (0 <=? k) && (k <? n) then index l (Z.to_nat k)
  else if (- n <=? k) && (k <? 0) then index l (Z.to_nat (n + k))
  else Raise IndexError.

(** [next(it)] on a line generator, modelled by the list of the lines it
    has not yielded yet. *)
Definition next (file : list string) : result (string * list string) :=
  match file with
  | l :: rest => Ok (l, rest)
  | [] => Raise StopIteration
  end.

(** *** [int(str)] *)

(** Underscores in numeric literals are accepted only between two digits.
    The pass checks this and drops them; [prev] is the previous
    character. *)
Fixpoint drop_underscores (prev : ascii) (s : string) : option string :=
  match s with
  | EmptyString => if Ascii.eqb prev "_" then None else Some EmptyString
  | String c s' =>
      if Ascii.eqb c "_" then
        if isdigit prev then drop_underscores c s' else None
      else if Ascii.eqb prev "_" && negb (isdigit c) then None
      else String c <$> drop_underscores c s'
  end.

(** Longest prefix of decimal digits, as its digits, and the rest. *)
Fixpoint span_digits (s : string) : list Z * string :=
  match s with
  | String c s' =>
      if isdigit c then
        let '(ds, r) := span_digits s' in (digit_value c :: ds, r)
      else ([], s)
  | EmptyString => ([], EmptyString)
  end.

Definition digits_to_Z (ds : list Z) : Z :=
  fold_left (fun acc d => 10 * acc + d) ds 0.

(** An optional sign: [true] for a minus. *)
Definition split_sign (s : string) : bool * string :=
  match s with
  | String "+" r => (false, r)
  | String "-" r => (true, r)
  | _ => (false, s)
  end.

(** [int(s)] for a string, base 10: surrounding whitespace is ignored, a
    sign is optional, at least one digit is required.  The interpreter's
    limit on the number of digits is not modelled. *)
Definition int (s : string) : result Z :=
  match drop_underscores "000" (strip_literal s) with
  | None => Raise ValueError
  | Some u =>
      let '(neg, body) := split_sign u in
      match span_digits body with
      | (d :: ds, EmptyString) =>
          let n := digits_to_Z (d :: ds) in Ok (if neg then - n else n)
      | _ => Raise ValueError
      end
  end.

(** *** [float(str)] and [int(float)] *)

(** Python floats: IEEE-754 binary64. *)
Definition prec : Z := 53.
Definition emax : Z := 1024.

Definition lower (c : ascii) : ascii :=
  let n := N_of_ascii c in
  if ((65 <=? n) && (n <=? 90))%N then ascii_of_N (n + 32) else c.

Fixpoint lowercase (s : string) : string :=
  match s with
  | EmptyString => EmptyString
  | String c s' => String (lower c) (lowercase s')
  end.

(** The binary64 value nearest to [m * 10 ^ e10] (ties to even, overflow to
    an infinity), for [m >= 0]: the correctly rounded conversion of the
    interpreter's [strtod]. *)
Definition of_decimal (neg : bool) (m e10 : Z) : spec_float :=
  match m with
  | Zpos _ =>
      let num := m * 10 ^ Z.max e10 0 in
      let den := 10 ^ Z.max (- e10) 0 in
      let '(q, e, l) := SFdiv_core_binary prec emax num 0 den 0 in
      binary_round_aux prec emax neg q e l
  | _ => S754_zero neg
  end.

(** What may follow the digits of a decimal literal: nothing, or an
    exponent [("e" | "E") [sign] digit+]. *)
Definition exponent_part (s : string) : option Z :=
  match s with
  | EmptyString => Some 0
  | String c r =>
      if Ascii.eqb (lower c) "e" then
        let '(neg, r') := split_sign r in
        match span_digits r' with
        | (d :: ds, EmptyString) =>
            let n := digits_to_Z (d :: ds) in Some (if neg then - n else n)
        | _ => None
        end
      else None
  end.

(** [[digits] "." digits | digits ["."]], then an optional exponent:
    the decimal mantissa and exponent of the literal. *)
Definition decimal_literal (s : string) : option (Z * Z) :=
  let '(ip, r1) := span_digits s in
  let '(fp, r2) :=
    match r1 with
    | String "." r => span_digits r
    | _ => ([], r1)
    end in
  match (ip ++ fp)%list with
  | [] => None
  | ds =>
      match exponent_part r2 with
      | Some e => Some (digits_to_Z ds, e - Z.of_nat (length fp))
      | None => None
      end
  end.

(** [float(s)] for a string: surrounding whitespace is ignored; a sign is
    optional; [inf], [infinity] and [nan] are accepted in any case. *)
Definition float (s : string) : result spec_float :=
  match drop_underscores "000" (strip_literal s) with
  | None => Raise ValueError
  | Some u =>
      let '(neg, body) := split_sign u in
      let low := lowercase body in
      if String.eqb low "inf" || String.eqb low "infinity" then
        Ok (S754_infinity neg)
      else if String.eqb low "nan" then Ok S754_nan
      else match decimal_literal body with
           | Some (m, e) => Ok (of_decimal neg m e)
           | None => Raise ValueError
           end
  end.

(** [int(x)] for a float [x]: truncation towards zero. *)
Definition int_of_float (x : spec_float) : result Z :=
  match x with
  | S754_zero _ => Ok 0
  | S754_finite s m e =>
      let a := if 0 <=? e then Zpos m * 2 ^ e else Zpos m / 2 ^ (- e) in
      Ok (if s then - a else a)
  | S754_infinity _ => Raise OverflowError
  | S754_nan => Raise ValueError
  end.

(** [str(n)] for an integer, as f-strings format it. *)
Fixpoint digits_of_pos (fuel : nat) (n : Z) (acc : string) : string :=
  match fuel with
  | O => acc
  | S fuel' =>
      let acc' := String (ascii_of_N (Z.to_N (n mod 10) + 48)) acc in
      if n <? 10 then acc' else digits_of_pos fuel' (n / 10) acc'
  end.

Definition str_of_int (n : Z) : string :=
  let a := Z.abs n in
  let ds := digits_of_pos (S (Z.to_nat (Z.log2 a))) a EmptyString in
  if n <? 0 then String "-" ds else ds.

End Py.

(** ** Data model *)

(** The values a metadata entry can carry: [None], a string, an integer, a
    float, or a tuple of three floats. *)
Inductive value : Type :=
  | VNone
  | VStr (s : string)
  | VInt (n : Z)
  | VFloat (x : spec_float)
  | VTriplet (t : spec_float * spec_float * spec_float).

(** Modelled from the spec: the metadata-value constructor
    [MetaForgeMetadata(key, value, annotation, units)] is imported from
    [metaforge.parsers.metaforgeparser]; its last two arguments are
    optional.  An entry records the arguments of the call as they were
    passed, [None] standing for an argument left out. *)
Record MetaForgeMetadata : Type := mk_metadata {
  source_path : string;
  md_value : value;
  annotation : option string;
  units : option string
}.

Inductive LaueGroup : Type :=
  | TRICLINIC
  | MONOCLINIC
  | ORTHORHOMBIC
  | TETRAGONAL_LOW
  | TETRAGONAL_HIGH
  | TRIGONAL_LOW
  | TRIGONAL_HIGH
  | HEXAGONAL_LOW
  | HEXAGONAL_HIGH
  | CUBIC_LOW
  | CUBIC_HIGH
  | UNKNOWN_SYMMETRY.

Module LaueGroup.

(** The integer value of a member. *)
Definition to_int (g : LaueGroup) : Z :=
  match g with
  | TRICLINIC => 1
  | MONOCLINIC => 2
  | ORTHORHOMBIC => 3
  | TETRAGONAL_LOW => 4
  | TETRAGONAL_HIGH => 5
  | TRIGONAL_LOW => 6
  | TRIGONAL_HIGH => 7
  | HEXAGONAL_LOW => 8
  | HEXAGONAL_HIGH => 9
  | CUBIC_LOW => 10
  | CUBIC_HIGH => 11
  | UNKNOWN_SYMMETRY => 12
  end.

(** [g.name] *)
Definition name (g : LaueGroup) : string :=
  match g with
  | TRICLINIC => "TRICLINIC"
  | MONOCLINIC => "MONOCLINIC"
  | ORTHORHOMBIC => "ORTHORHOMBIC"
  | TETRAGONAL_LOW => "TETRAGONAL_LOW"
  | TETRAGONAL_HIGH => "TETRAGONAL_HIGH"
  | TRIGONAL_LOW => "TRIGONAL_LOW"
  | TRIGONAL_HIGH => "TRIGONAL_HIGH"
  | HEXAGONAL_LOW => "HEXAGONAL_LOW"
  | HEXAGONAL_HIGH => "HEXAGONAL_HIGH"
  | CUBIC_LOW => "CUBIC_LOW"
  | CUBIC_HIGH => "CUBIC_HIGH"
  | UNKNOWN_SYMMETRY => "UNKNOWN_SYMMETRY"
  end.

(** The call [LaueGroup(n)]: the member whose value is [n]; an [IntEnum]
    raises [ValueError] when there is none. *)
Definition call (n : Z) : result LaueGroup :=
  match n with
  | 1 => Ok TRICLINIC
  | 2 => Ok MONOCLINIC
  | 3 => Ok ORTHORHOMBIC
  | 4 => Ok TETRAGONAL_LOW
  | 5 => Ok TETRAGONAL_HIGH
  | 6 => Ok TRIGONAL_LOW
  | 7 => Ok TRIGONAL_HIGH
  | 8 => Ok HEXAGONAL_LOW
  | 9 => Ok HEXAGONAL_HIGH
  | 10 => Ok CUBIC_LOW
  | 11 => Ok CUBIC_HIGH
  | 12 => Ok UNKNOWN_SYMMETRY
  | _ => Raise ValueError
  end.

End LaueGroup.

Definition triplet : Type := spec_float * spec_float * spec_float.

Record CtfPhase : Type := mk_phase {
  index : Z;
  lattice_constants : triplet;
  lattice_angles : triplet;
  name : string;
  group : LaueGroup;
  space_group : Z;
  comment : string;
  internal1 : string;
  internal2 : string
}.

(** The object held by [CtfHeader.phases]: the constructor stores an empty
    [dict]; [_parse_header] replaces it by the [list] that [parse_phases]
    returns. *)
Inductive phases_obj : Type :=
  | PhDict (m : gmap Z CtfPhase)
  | PhList (l : list CtfPhase).

Record CtfHeader : Type := mk_header {
  phases : phases_obj;
  entries : list MetaForgeMetadata;
  unknown_entries : list MetaForgeMetadata
}.

(** [CtfHeader()] *)
Definition CtfHeader_init : CtfHeader :=
  {| phases := PhDict ∅; entries := []; unknown_entries := [] |}.

(** The subscript [header.phases[k]] on whichever object is stored. *)
Definition phases_getitem (p : phases_obj) (k : Z) : result CtfPhase :=
  match p with
  | PhDict m =>
      match m !! k with
      | Some x => Ok x
      | None => Raise KeyError
      end
  | PhList l => Py.getitem l k
  end.

(** [len(header.phases)] *)
Definition phases_len (p : phases_obj) : Z :=
  match p with
  | PhDict m => Z.of_nat (size m)
  | PhList l => Z.of_nat (length l)
  end.

(** ** Constants *)

Definition CTF_DELIMITER : string := String Py.TAB EmptyString.

Definition CTF_CHANNEL_TEXT_FILE : string := "Channel Text File".
Definition CTF_COLON_CHANNEL_TEXT_FILE : string := ":Channel Text File".
Definition CTF_PRJ : string := "Prj".
Definition CTF_PHASES : string := "Phases".

Definition CTF_LONG_TEXT : string :=
  "Euler angles refer to Sample Coordinate system (CS0)!".
Definition CTF_MAG : string := "Mag".
Definition CTF_COVERAGE : string := "Coverage".
Definition CTF_DEVICE : string := "Device".
Definition CTF_KV : string := "KV".
Definition CTF_TILT_ANGLE : string := "TiltAngle".
Definition CTF_TILT_AXIS : string := "TiltAxis".

Definition CTF_AUTHOR : string := "Author".
Definition CTF_JOB_MODE : string := "JobMode".
Definition CTF_X_CELLS : string := "XCells".
Definition CTF_Y_CELLS : string := "YCells".
Definition CTF_Z_CELLS : string := "ZCells".
Definition CTF_X_STEP : string := "XStep".
Definition CTF_Y_STEP : string := "YStep".
Definition CTF_Z_STEP : string := "ZStep".
Definition CTF_ACQ_E1 : string := "AcqE1".
Definition CTF_ACQ_E2 : string := "AcqE2".
Definition CTF_ACQ_E3 : string := "AcqE3".
Definition CTF_EULER : string := "Euler".

(** ** Numeric coercions *)

Definition euro_to_us_dec_string (text : string) : string :=
  Py.replace "," "." text.

Definition parse_float (text : string) : result spec_float :=
  Py.float (euro_to_us_dec_string text).

(** The callables stored in the dispatch table. *)
Inductive coercion : Type :=
  | co_str
  | co_int
  | co_parse_float.

Definition coerce (f : coercion) (text : string) : result value :=
  match f with
  | co_str => Ok (VStr text)
  | co_int => n ← Py.int text; Ok (VInt n)
  | co_parse_float => x ← parse_float text; Ok (VFloat x)
  end.

Definition CTF_HEADER_PARSE_MAP : gmap string coercion :=
  list_to_map [
    (CTF_AUTHOR, co_str);
    (CTF_JOB_MODE, co_str);
    (CTF_X_CELLS, co_int);
    (CTF_Y_CELLS, co_int);
    (CTF_Z_CELLS, co_int);
    (CTF_X_STEP, co_parse_float);
    (CTF_Y_STEP, co_parse_float);
    (CTF_Z_STEP, co_parse_float);
    (CTF_ACQ_E1, co_parse_float);
    (CTF_ACQ_E2, co_parse_float);
    (CTF_ACQ_E3, co_parse_float);
    (CTF_EULER, co_str)
  ].

(** ** The parser *)

Module CtfParser.

Definition parse_float_triplet (text : string) : result triplet :=
  let tokens := Py.split ";" (euro_to_us_dec_string text) in
  t0 ← Py.index tokens 0;
  x0 ← Py.float t0;
  t1 ← Py.index tokens 1;
  x1 ← Py.float t1;
  t2 ← Py.index tokens 2;
  x2 ← Py.float t2;
  Ok (x0, x1, x2).

(** The optional values of a phase row, by the number of its fields:
    [(comment, space_group, internal1, internal2)]. *)
Definition phase_optionals (tokens : list string)
  : result (string * Z * string * string) :=
  if decide (length tokens = 5%nat) then
    t4 ← Py.index tokens 4;
    Ok (Py.strip t4, 0, "", "")
  else if decide (length tokens = 8%nat) then
    t4 ← Py.index tokens 4;
    space_group ← Py.int (Py.strip t4);
    t5 ← Py.index tokens 5;
    t6 ← Py.index tokens 6;
    t7 ← Py.index tokens 7;
    Ok (Py.strip t7, space_group, Py.strip t5, Py.strip t6)
  else Ok ("", 0, "", "").

(** One turn of the loop of [parse_phases], after [next(file)]: the phase
    built from the raw line at loop counter [i]. *)
Definition parse_phase_row (i : Z) (raw : string) : result CtfPhase :=
  let line := Py.strip raw in
  let tokens := Py.split Py.TAB line in
  t0 ← Py.index tokens 0;
  lattice_constants ← parse_float_triplet (Py.strip t0);
  t1 ← Py.index tokens 1;
  lattice_angles ← parse_float_triplet (Py.strip t1);
  t2 ← Py.index tokens 2;
  let name := Py.strip t2 in
  t3 ← Py.index tokens 3;
  code ← Py.int t3;
  group ← LaueGroup.call code;
  '(comment, space_group, internal1, internal2) ← phase_optionals tokens;
  Ok (mk_phase (i + 1) lattice_constants lattice_angles name group
        space_group comment internal1 internal2).

(** The loop [for i in range(num_phases)], with [n] turns left, on the
    shared line cursor [file]. *)
Fixpoint parse_phases_from (n : nat) (i : Z) (file : list string)
    (phases : list CtfPhase) : result (list CtfPhase * list string) :=
  match n with
  | O => Ok (phases, file)
  | S n' =>
      '(raw, file') ← Py.next file;
      phase ← parse_phase_row i raw;
      parse_phases_from n' (i + 1) file' (phases ++ [phase])
  end.

(** [parse_phases(file, num_phases)]: the phases, and the cursor as the
    call leaves it. *)
Definition parse_phases (file : list string) (num_phases : Z)
  : result (list CtfPhase * list string) :=
  parse_phases_from (Z.to_nat num_phases) 0 file [].

Definition parse_ctf_long_text (tokens : list string)
  : result (list MetaForgeMetadata) :=
  t2 ← Py.index tokens 2;
  mag ← Py.int (Py.strip t2);
  t4 ← Py.index tokens 4;
  coverage ← Py.int (Py.strip t4);
  t6 ← Py.index tokens 6;
  device ← Py.int (Py.strip t6);
  t8 ← Py.index tokens 8;
  kv_float ← Py.float (Py.strip t8);
  kv ← Py.int_of_float kv_float;
  t10 ← Py.index tokens 10;
  tilt_angle ← Py.float (Py.strip t10);
  t12 ← Py.index tokens 12;
  tilt_axis ← Py.float (Py.strip t12);
  Ok [ mk_metadata ("SOURCE/" ++ CTF_MAG) (VInt mag) None None;
       mk_metadata ("SOURCE/" ++ CTF_COVERAGE) (VInt coverage) None None;
       mk_metadata ("SOURCE/" ++ CTF_DEVICE) (VInt device) None None;
       mk_metadata ("SOURCE/" ++ CTF_KV) (VInt kv) None None;
       mk_metadata ("SOURCE/" ++ CTF_TILT_ANGLE) (VFloat tilt_angle) None None;
       mk_metadata ("SOURCE/" ++ CTF_TILT_AXIS) (VFloat tilt_axis) None None ].

(** How one turn of the header loop ends. *)
Inductive flow : Type :=
  | Continue (h : CtfHeader)
  | Break (h : CtfHeader).

Section Collaborators.

(** The unit strings of [metaforge.common.parser_units] and the class-name
    table of [metaforge.common.hkl_constants] are imported constants. *)
Variables MICRONS_UNITS DEGREES_UNITS ANGSTROM_UNITS : string.
Variable CTF_LAUE_CLASS_MAP : gmap Z string.

Definition CTF_HEADER_UNITS_MAP : gmap string string :=
  list_to_map [
    (CTF_X_STEP, MICRONS_UNITS);
    (CTF_Y_STEP, MICRONS_UNITS);
    (CTF_Z_STEP, MICRONS_UNITS)
  ].

(** The body of the loop of [_parse_header] on the raw line [raw], with
    [file_gen] the lines the generator has not yielded yet. *)
Definition header_line (ctf_header : CtfHeader) (raw : string)
    (file_gen : list string) : result flow :=
  let line := Py.strip raw in
  let tokens := Py.split Py.TAB line in
  keyword ← Py.index tokens 0;
  if Py.startswith line CTF_CHANNEL_TEXT_FILE
     || Py.startswith line CTF_COLON_CHANNEL_TEXT_FILE then
    Ok (Continue ctf_header)
  else if Py.startswith line CTF_PRJ then
    let e := mk_metadata ("SOURCE/" ++ CTF_PRJ)
               (VStr (Py.slice_from (String.length CTF_PRJ + 1) line))
               None None in
    Ok (Continue {| phases := phases ctf_header;
                    entries := entries ctf_header ++ [e];
                    unknown_entries := unknown_entries ctf_header |})
  else if Py.startswith line CTF_LONG_TEXT then
    es ← parse_ctf_long_text tokens;
    Ok (Continue {| phases := phases ctf_header;
                    entries := entries ctf_header ++ es;
                    unknown_entries := unknown_entries ctf_header |})
  else if Py.startswith line CTF_PHASES then
    t1 ← Py.index tokens 1;
    phase_num ← Py.int t1;
    '(ps, _) ← parse_phases file_gen phase_num;
    Ok (Break {| phases := PhList ps;
                 entries := entries ctf_header;
                 unknown_entries := unknown_entries ctf_header |})
  else
    match CTF_HEADER_PARSE_MAP !! keyword with
    | Some f =>
        value ← (if decide (1 < length tokens)%nat
                 then coerce f (Py.join CTF_DELIMITER (drop 1 tokens))
                 else Ok VNone);
        let units := default "" (CTF_HEADER_UNITS_MAP !! keyword) in
        let e := mk_metadata ("SOURCE/" ++ keyword) value (Some "")
                   (Some units) in
        Ok (Continue {| phases := phases ctf_header;
                        entries := entries ctf_header ++ [e];
                        unknown_entries := unknown_entries ctf_header |})
    | None =>
        let e := mk_metadata ("SOURCE/" ++ keyword)
                   (VStr (Py.join CTF_DELIMITER (drop 1 tokens)))
                   None None in
        Ok (Continue {| phases := phases ctf_header;
                        entries := entries ctf_header;
                        unknown_entries := unknown_entries ctf_header ++ [e] |})
    end.

(** The loop [for line in file_gen] of [_parse_header]. *)
Fixpoint header_loop (ctf_header : CtfHeader) (file_gen : list string)
    : result CtfHeader :=
  match file_gen with
  | [] => Ok ctf_header
  | raw :: rest =>
      match header_line ctf_header raw rest with
      | Raise e => Raise e
      | Ok (Continue h) => header_loop h rest
      | Ok (Break h) => Ok h
      end
  end.

(** [_parse_header], on the lines that [file_line_generator(filepath)]
    yields. *)
Definition _parse_header (lines : list string) : result CtfHeader :=
  header_loop CtfHeader_init lines.

(** The eight entries that [parse_header] appends for one phase. *)
Definition phase_entries (phase : CtfPhase) : list MetaForgeMetadata :=
  let annotations :=
    "Phase " ++ Py.str_of_int (index phase) ++ ", "
    ++ default "Unknown" (CTF_LAUE_CLASS_MAP !! index phase) in
  let path := "SOURCE/Phases/Phase " ++ Py.str_of_int (index phase) in
  [ mk_metadata (path ++ "/LaueGroup")
      (VStr (LaueGroup.name (group phase))) (Some annotations) None;
    mk_metadata (path ++ "/Internal1")
      (VStr (internal1 phase)) (Some annotations) None;
    mk_metadata (path ++ "/Internal2")
      (VStr (internal2 phase)) (Some annotations) None;
    mk_metadata (path ++ "/LatticeAngles")
      (VTriplet (lattice_angles phase)) (Some annotations)
      (Some DEGREES_UNITS);
    mk_metadata (path ++ "/LatticeConstants")
      (VTriplet (lattice_constants phase)) (Some annotations)
      (Some ANGSTROM_UNITS);
    mk_metadata (path ++ "/Name")
      (VStr (name phase)) (Some annotations) None;
    mk_metadata (path ++ "/SpaceGroup")
      (VInt (space_group phase)) (Some annotations) None;
    mk_metadata (path ++ "/Comment")
      (VStr (comment phase)) (Some annotations) None ].

(** The loop [for phase in phases] of [parse_header] over a list of
    phases, appending to [entries]. *)
Fixpoint emit_phases (entries : list MetaForgeMetadata)
    (ps : list CtfPhase) : list MetaForgeMetadata :=
  match ps with
  | [] => entries
  | phase :: ps' => emit_phases (entries ++ phase_entries phase) ps'
  end.

(** [parse_header].  The loop iterates over the elements of a list and
    over the keys of a dict; a key is an integer and has no attribute
    [index]. *)
Definition parse_header (lines : list string)
  : result (list MetaForgeMetadata) :=
  header ← _parse_header lines;
  match phases header with
  | PhList ps => Ok (emit_phases (entries header) ps)
  | PhDict m =>
      if decide (m = ∅) then Ok (entries header) else Raise AttributeError
  end.

End Collaborators.

End CtfParser.

(** ** Example inputs *)

(** A line made of tab-separated fields. *)
Definition tabbed (fields : list string) : string :=
  Py.join CTF_DELIMITER fields.

(** The long-text instrument line with the given KV, TiltAngle and TiltAxis
    tokens. *)
Definition long_text_line (kv tilt_angle tilt_axis : string) : string :=
  tabbed [ CTF_LONG_TEXT; "Mag"; "100"; "Coverage"; "100"; "Device"; "0";
           "KV"; kv; "TiltAngle"; tilt_angle; "TiltAxis"; tilt_axis ].

(** The phase marker and the two rows of a nickel / iron table. *)
Definition nickel_row : string :=
  tabbed [ "3.52;3.52;3.52"; "90;90;90"; "Nickel"; "11"; "225"; ""; "";
           "FCC Nickel" ].
Definition iron_row : string :=
  tabbed [ "2.87;2.87;2.87"; "90;90;90"; "Iron"; "11"; "0"; ""; "";
           "BCC Iron" ].
Definition two_phase_file : list string :=
  [ tabbed [ "Phases"; "2" ]; nickel_row; iron_row ].

(** 1.5, 20.5 and 70.0 as binary64 values. *)
Definition f_1_5 : spec_float := S754_finite false 6755399441055744 (-52).
Definition f_0_5 : spec_float := S754_finite false 4503599627370496 (-53).
Definition f_70 : spec_float := S754_finite false 4925812092436480 (-46).

(** A header with a signature line, an unknown keyword, a cell count and
    the two-phase table. *)
Definition small_file : list string :=
  ([ "Channel Text File"; tabbed ["Mumble"; "foo"; "bar"];
     tabbed ["XCells"; "10"] ] ++ two_phase_file)%list.

(** ** Header updates *)

(** The header after entries were appended to [entries]. *)
Definition with_entries (h : CtfHeader) (es : list MetaForgeMetadata)
  : CtfHeader :=
  {| phases := phases h; entries := entries h ++ es;
     unknown_entries := unknown_entries h |}.

(** The header after an entry was appended to [unknown_entries]. *)
Definition with_unknown (h : CtfHeader) (e : MetaForgeMetadata)
  : CtfHeader :=
  {| phases := phases h; entries := entries h;
     unknown_entries := unknown_entries h ++ [e] |}.

(** The header after the phase table was stored. *)
Definition with_phases (h : CtfHeader) (ps : list CtfPhase) : CtfHeader :=
  {| phases := PhList ps; entries := entries h;
     unknown_entries := unknown_entries h |}.

(** What the phase-count marker does with the token list of its line and
    the rest of the file. *)
Definition marker_outcome (h : CtfHeader) (tokens rest : list string)
  : result CtfHeader :=
  t1 ← Py.index tokens 1;
  phase_num ← Py.int t1;
  '(ps, _) ← CtfParser.parse_phases rest phase_num;
  Ok (with_phases h ps).

(** * Properties *)

Import CtfParser.

(** ** The result monad *)

Lemma bind_Ok {A B} (f : A -> result B) (a : A) : (Ok a ≫= f) = f a.
Proof. reflexivity. Qed.

Lemma bind_inv_Ok {A B} (f : A -> result B) (m : result A) (b : B) :
  (m ≫= f) = Ok b -> exists a, m = Ok a /\ f a = Ok b.
Proof. destruct m as [a|e]; simpl; [eauto | discriminate]. Qed.

Lemma raises_bind {A B} (f : A -> result B) (m : result A) :
  raises m -> raises (m ≫= f).
Proof. intros [e ->]. by exists e. Qed.

Lemma raises_or_returns {A} (m : result A) : raises m \/ returns m.
Proof. destruct m as [a|e]; [right | left]; by eexists. Qed.

(** ** Strings and lists *)

Lemma split_cons sep s : exists t ts, Py.split sep s = t :: ts.
Proof.
  induction s as [|c s IH]; simpl; [by eexists _, _|].
  destruct (Ascii.eqb c sep); [by eexists _, _|].
  destruct IH as (t & ts & ->). by eexists _, _.
Qed.

(** Splitting a text to which a separator and more text were appended:
    the fields of the first part come first, unchanged. *)
Lemma split_app sep s t :
  Py.split sep (s ++ String sep t) = (Py.split sep s ++ Py.split sep t)%list.
Proof.
  induction s as [|c s IH]; simpl.
  - by rewrite Ascii.eqb_refl.
  - destruct (Ascii.eqb c sep); [by rewrite IH|].
    rewrite IH. destruct (split_cons sep s) as (x & xs & ->). done.
Qed.

Lemma startswith_app s p : Py.startswith s p = true <-> exists r, s = p ++ r.
Proof.
  revert s. induction p as [|a p IH]; intros s; simpl.
  - split; [by exists s|done].
  - destruct s as [|b s].
    + split; [done|]. by intros [r Hr].
    + rewrite andb_true_iff, IH, Ascii.eqb_eq. split.
      * intros [-> [r ->]]. by exists r.
      * intros [r Hr]. injection Hr as -> ->. eauto.
Qed.

Lemma replace_app a b s t :
  Py.replace a b (s ++ t) = Py.replace a b s ++ Py.replace a b t.
Proof. induction s as [|c s IH]; simpl; [done|]. by rewrite IH. Qed.

Lemma index_Some {A} (l : list A) (i : nat) (x : A) :
  l !! i = Some x -> Py.index l i = Ok x.
Proof. unfold Py.index. by intros ->. Qed.

Lemma index_inv {A} (l : list A) (i : nat) (x : A) :
  Py.index l i = Ok x -> l !! i = Some x.
Proof. unfold Py.index. destruct (l !! i); naive_solver. Qed.

Lemma index_0 {A} (x : A) (l : list A) : Py.index (x :: l) 0 = Ok x.
Proof. reflexivity. Qed.

Lemma bind_inv_Raise {A B} (f : A -> result B) (m : result A) (e : exn) :
  (m ≫= f) = Raise e -> m = Raise e \/ exists a, m = Ok a /\ f a = Raise e.
Proof.
  destruct m as [a|e']; simpl; intros H; [eauto|]. left. by injection H as ->.
Qed.

(** The exceptions of the built-ins. *)
Lemma index_Raise {A} (l : list A) (i : nat) (e : exn) :
  Py.index l i = Raise e -> e = IndexError.
Proof. unfold Py.index. destruct (l !! i); congruence. Qed.

Lemma int_Raise s e : Py.int s = Raise e -> e = ValueError.
Proof.
  unfold Py.int. destruct (Py.drop_underscores _ _); [|congruence].
  destruct (Py.split_sign _) as [neg body].
  destruct (Py.span_digits body) as [[|d ds] [|c r]]; congruence.
Qed.

Lemma float_Raise s e : Py.float s = Raise e -> e = ValueError.
Proof.
  unfold Py.float. destruct (Py.drop_underscores _ _); [|congruence].
  destruct (Py.split_sign _) as [neg body].
  destruct (_ || _); [congruence|]. destruct (String.eqb _ _); [congruence|].
  destruct (Py.decimal_literal body) as [[m x]|]; congruence.
Qed.

Lemma int_of_float_Raise x e :
  Py.int_of_float x = Raise e -> e = OverflowError \/ e = ValueError.
Proof. destruct x; simpl; intros H; try discriminate; injection H; auto. Qed.

(** Stripping keeps a prefix that neither begins nor ends with
    whitespace. *)
Lemma rstrip_with_app sp p r :
  Py.rstrip_with sp (p ++ r)
  = match Py.rstrip_with sp r with
    | EmptyString => Py.rstrip_with sp p
    | r' => p ++ r'
    end.
Proof.
  induction p as [|c p IH].
  - change ("" ++ r) with r. destruct (Py.rstrip_with sp r); reflexivity.
  - change (String c p ++ r) with (String c (p ++ r)).
    cbn [Py.rstrip_with]. rewrite IH.
    destruct (Py.rstrip_with sp r) as [|a r']; [reflexivity|].
    destruct p; reflexivity.
Qed.

Lemma startswith_strip raw c p :
  Py.isspace c = false ->
  Py.rstrip_with Py.isspace (String c p) = String c p ->
  Py.startswith raw (String c p) = true ->
  Py.startswith (Py.strip raw) (String c p) = true.
Proof.
  intros Hc Hp [r ->]%startswith_app. unfold Py.strip.
  change (String c p ++ r) with (String c (p ++ r)) at 1.
  cbn [Py.lstrip_with]. rewrite Hc.
  change (String c (p ++ r)) with (String c p ++ r).
  rewrite rstrip_with_app, Hp. apply startswith_app.
  destruct (Py.rstrip_with Py.isspace r) as [|a r'].
  - exists "". clear. induction (String c p) as [|x s IH]; [done|].
    change (String x s ++ "") with (String x (s ++ "")). by rewrite <- IH.
  - by eexists.
Qed.

(** The keys of the dispatch table. *)
Lemma dispatch_table_keys k :
  CTF_HEADER_PARSE_MAP !! k = None
  <-> k ∉ [ CTF_AUTHOR; CTF_JOB_MODE; CTF_X_CELLS; CTF_Y_CELLS; CTF_Z_CELLS;
            CTF_X_STEP; CTF_Y_STEP; CTF_Z_STEP; CTF_ACQ_E1; CTF_ACQ_E2;
            CTF_ACQ_E3; CTF_EULER ].
Proof.
  unfold CTF_HEADER_PARSE_MAP. by rewrite <- not_elem_of_list_to_map.
Qed.

(** ** The comma decimal separator *)

(** A text whose periods are written as commas normalises to the same
    text. *)
Lemma euro_to_us_of_commas s :
  euro_to_us_dec_string (Py.replace "." "," s) = euro_to_us_dec_string s.
Proof.
  unfold euro_to_us_dec_string.
  induction s as [|c s IH]; simpl; [done|]. rewrite IH. f_equal.
  destruct (Ascii.eqb c ".") eqn:E1; simpl.
  - apply Ascii.eqb_eq in E1 as ->. done.
  - destruct (Ascii.eqb c ","); done.
Qed.

Lemma euro_to_us_idemp s :
  euro_to_us_dec_string (euro_to_us_dec_string s) = euro_to_us_dec_string s.
Proof.
  unfold euro_to_us_dec_string.
  induction s as [|c s IH]; simpl; [done|]. rewrite IH. f_equal.
  destruct (Ascii.eqb c ",") eqn:E1; simpl; [done|]. by rewrite E1.
Qed.

(** [parse_float] does not distinguish the two separators. *)
Lemma parse_float_comma s :
  parse_float (Py.replace "." "," s) = parse_float s.
Proof. unfold parse_float. by rewrite euro_to_us_of_commas. Qed.

Lemma parse_float_triplet_comma s :
  parse_float_triplet (Py.replace "." "," s) = parse_float_triplet s.
Proof. unfold parse_float_triplet. by rewrite euro_to_us_of_commas. Qed.

(** ** C1: the comma decimal separator on the long-text line *)

(** C1 (the long-text line is not locale-tolerant).  [parse_float] and
    [parse_float_triplet] replace a comma by a period before they parse, so
    "1,5" and "1.5" both give 1.5, a text gives the same float or triplet
    with its periods written as commas, and an XStep line reads the same
    with either separator.  [parse_ctf_long_text] calls [float] on its KV,
    TiltAngle and TiltAxis tokens without that replacement: the line
    parses with "20.5", "70.0", "0.5" and raises [ValueError] as soon as
    one of the three is written with a comma, and so does the header
    pass. *)
Theorem C1_long_text_comma_rejected :
  parse_float "1,5" = Ok f_1_5 /\ parse_float "1.5" = Ok f_1_5
  /\ (forall s, parse_float (Py.replace "." "," s) = parse_float s)
  /\ (forall s,
        parse_float_triplet (Py.replace "." "," s) = parse_float_triplet s)
  /\ parse_ctf_long_text
       (Py.split Py.TAB (long_text_line "20.5" "70.0" "0.5"))
     = Ok [ mk_metadata "SOURCE/Mag" (VInt 100) None None;
            mk_metadata "SOURCE/Coverage" (VInt 100) None None;
            mk_metadata "SOURCE/Device" (VInt 0) None None;
            mk_metadata "SOURCE/KV" (VInt 20) None None;
            mk_metadata "SOURCE/TiltAngle" (VFloat f_70) None None;
            mk_metadata "SOURCE/TiltAxis" (VFloat f_0_5) None None ]
  /\ parse_ctf_long_text
       (Py.split Py.TAB (long_text_line "20,5" "70.0" "0.5"))
     = Raise ValueError
  /\ parse_ctf_long_text
       (Py.split Py.TAB (long_text_line "20.5" "70,0" "0.5"))
     = Raise ValueError
  /\ parse_ctf_long_text
       (Py.split Py.TAB (long_text_line "20.5" "70.0" "0,5"))
     = Raise ValueError
  /\ (forall units h rest,
        header_line units h (long_text_line "20,5" "70.0" "0.5") rest
        = Raise ValueError)
  /\ (forall units h rest,
        header_line units h (tabbed ["XStep"; "0,5"]) rest
        = header_line units h (tabbed ["XStep"; "0.5"]) rest).
Proof.
  split; [reflexivity|]. split; [reflexivity|].
  split; [exact parse_float_comma|].
  split; [exact parse_float_triplet_comma|].
  repeat split; try (vm_compute; reflexivity).
Qed.

(** ** C10 and C7: the line classifier *)

Section Classifier.

Variable MICRONS_UNITS : string.

Lemma signature_line h raw rest :
  Py.startswith (Py.strip raw) CTF_CHANNEL_TEXT_FILE = true
  \/ Py.startswith (Py.strip raw) CTF_COLON_CHANNEL_TEXT_FILE = true ->
  header_line MICRONS_UNITS h raw rest = Ok (Continue h).
Proof.
  intros H. unfold header_line.
  destruct (split_cons Py.TAB (Py.strip raw)) as (t & ts & ->).
  rewrite index_0, bind_Ok.
  destruct H as [H|H]; rewrite H; [reflexivity|].
  by rewrite orb_true_r.
Qed.

Lemma project_line h raw rest :
  Py.startswith (Py.strip raw) CTF_PRJ = true ->
  header_line MICRONS_UNITS h raw rest
  = Ok (Continue (with_entries h
          [mk_metadata "SOURCE/Prj" (VStr (Py.slice_from 4 (Py.strip raw)))
             None None])).
Proof.
  intros H. unfold header_line.
  destruct (split_cons Py.TAB (Py.strip raw)) as (t & ts & ->).
  rewrite H. apply startswith_app in H as [r ->]. reflexivity.
Qed.

Lemma long_text_line_rule h raw rest :
  Py.startswith (Py.strip raw) CTF_LONG_TEXT = true ->
  header_line MICRONS_UNITS h raw rest
  = (es ← parse_ctf_long_text (Py.split Py.TAB (Py.strip raw));
     Ok (Continue (with_entries h es))).
Proof.
  intros H. unfold header_line.
  destruct (split_cons Py.TAB (Py.strip raw)) as (t & ts & ->).
  rewrite H. apply startswith_app in H as [r ->]. reflexivity.
Qed.

Lemma marker_line h raw rest :
  Py.startswith (Py.strip raw) CTF_PHASES = true ->
  header_line MICRONS_UNITS h raw rest
  = (h' ← marker_outcome h (Py.split Py.TAB (Py.strip raw)) rest;
     Ok (Break h')).
Proof.
  intros H.
  assert (Py.startswith (Py.strip raw) CTF_CHANNEL_TEXT_FILE = false
          /\ Py.startswith (Py.strip raw) CTF_COLON_CHANNEL_TEXT_FILE = false
          /\ Py.startswith (Py.strip raw) CTF_PRJ = false
          /\ Py.startswith (Py.strip raw) CTF_LONG_TEXT = false)
    as (H1 & H2 & H3 & H4).
  { apply startswith_app in H as [r ->]. by repeat split. }
  unfold header_line, marker_outcome.
  destruct (split_cons Py.TAB (Py.strip raw)) as (t & ts & ->).
  rewrite H, H1, H2, H3, H4, index_0, bind_Ok. cbn [orb].
  destruct (Py.index (t :: ts) 1) as [t1|]; [|reflexivity].
  rewrite !bind_Ok.
  destruct (Py.int t1) as [n|]; [|reflexivity].
  rewrite !bind_Ok.
  by destruct (parse_phases rest n) as [[ps rest']|].
Qed.

(** Once the marker line is reached the loop ends with it: no line after
    the phase rows is classified. *)
Lemma marker_ends_loop h raw rest :
  Py.startswith (Py.strip raw) CTF_PHASES = true ->
  header_loop MICRONS_UNITS h (raw :: rest)
  = marker_outcome h (Py.split Py.TAB (Py.strip raw)) rest.
Proof.
  intros H. simpl. rewrite (marker_line _ _ _ H).
  by destruct (marker_outcome _ _ _).
Qed.

Lemma keyword_line h raw rest keyword tl :
  Py.split Py.TAB (Py.strip raw) = keyword :: tl ->
  Py.startswith (Py.strip raw) CTF_CHANNEL_TEXT_FILE = false ->
  Py.startswith (Py.strip raw) CTF_COLON_CHANNEL_TEXT_FILE = false ->
  Py.startswith (Py.strip raw) CTF_PRJ = false ->
  Py.startswith (Py.strip raw) CTF_LONG_TEXT = false ->
  Py.startswith (Py.strip raw) CTF_PHASES = false ->
  header_line MICRONS_UNITS h raw rest
  = match CTF_HEADER_PARSE_MAP !! keyword with
    | Some f =>
        value ← (if decide (tl <> [])
                 then coerce f (Py.join CTF_DELIMITER tl) else Ok VNone);
        Ok (Continue (with_entries h
              [mk_metadata ("SOURCE/" ++ keyword) value (Some "")
                 (Some (default "" (CTF_HEADER_UNITS_MAP MICRONS_UNITS
                                      !! keyword)))]))
    | None =>
        Ok (Continue (with_unknown h
              (mk_metadata ("SOURCE/" ++ keyword)
                 (VStr (Py.join CTF_DELIMITER tl)) None None)))
    end.
Proof.
  intros E H1 H2 H3 H4 H5. unfold header_line.
  rewrite E, H1, H2, H3, H4, H5, index_0, bind_Ok. cbn [orb drop].
  destruct (CTF_HEADER_PARSE_MAP !! keyword) as [f|]; [|reflexivity].
  destruct tl as [|x tl]; reflexivity.
Qed.

(** C10.  The first four rules look at the text of the whole (stripped)
    line: a line that begins with one of the two signature texts is
    skipped; a line that begins with "Prj" gives the project entry, whose
    value is the line from its fifth character on; a line that begins with
    the long-text literal is handed to [parse_ctf_long_text]; a line that
    begins with "Phases" reads the count from its second token, parses the
    phase rows and ends the loop, so that nothing after it is classified.
    None of this looks at the first token.  Only when no prefix matches is
    the first tab-separated token looked up in the dispatch table, and the
    lookup is by equality of keys.  A raw line that begins with one of the
    five prefixes still does after it was stripped. *)
Theorem C10_rules_match_by_prefix h raw rest :
  let line := Py.strip raw in
  let tokens := Py.split Py.TAB line in
  (forall prefix,
     prefix ∈ [ CTF_CHANNEL_TEXT_FILE; CTF_COLON_CHANNEL_TEXT_FILE; CTF_PRJ;
                CTF_LONG_TEXT; CTF_PHASES ] ->
     Py.startswith raw prefix = true -> Py.startswith line prefix = true)
  /\ (Py.startswith line CTF_CHANNEL_TEXT_FILE = true
   \/ Py.startswith line CTF_COLON_CHANNEL_TEXT_FILE = true ->
   header_line MICRONS_UNITS h raw rest = Ok (Continue h))
  /\ (Py.startswith line CTF_PRJ = true ->
      header_line MICRONS_UNITS h raw rest
      = Ok (Continue
              {| phases := phases h;
                 entries :=
                   entries h
                   ++ [mk_metadata "SOURCE/Prj"
                         (VStr (Py.slice_from 4 line)) None None];
                 unknown_entries := unknown_entries h |}))
  /\ (Py.startswith line CTF_LONG_TEXT = true ->
      header_line MICRONS_UNITS h raw rest
      = (es ← parse_ctf_long_text tokens;
         Ok (Continue (with_entries h es))))
  /\ (Py.startswith line CTF_PHASES = true ->
      header_line MICRONS_UNITS h raw rest
      = (h' ← marker_outcome h tokens rest; Ok (Break h'))
      /\ header_loop MICRONS_UNITS h (raw :: rest)
         = marker_outcome h tokens rest)
  /\ (forall keyword tl,
        tokens = keyword :: tl ->
        Py.startswith line CTF_CHANNEL_TEXT_FILE = false ->
        Py.startswith line CTF_COLON_CHANNEL_TEXT_FILE = false ->
        Py.startswith line CTF_PRJ = false ->
        Py.startswith line CTF_LONG_TEXT = false ->
        Py.startswith line CTF_PHASES = false ->
        header_line MICRONS_UNITS h raw rest
        = match CTF_HEADER_PARSE_MAP !! keyword with
          | Some f =>
              value ← (if decide (tl <> [])
                       then coerce f (Py.join CTF_DELIMITER tl)
                       else Ok VNone);
              Ok (Continue (with_entries h
                    [mk_metadata ("SOURCE/" ++ keyword) value (Some "")
                       (Some (default ""
                                (CTF_HEADER_UNITS_MAP MICRONS_UNITS
                                   !! keyword)))]))
          | None =>
              Ok (Continue (with_unknown h
                    (mk_metadata ("SOURCE/" ++ keyword)
                       (VStr (Py.join CTF_DELIMITER tl)) None None)))
          end).
Proof.
  intros line tokens. subst line tokens.
  split.
  { intros prefix Hin. rewrite !elem_of_cons, elem_of_nil in Hin.
    destruct Hin as [->|[->|[->|[->|[->|[]]]]]];
      by apply startswith_strip. }
  split; [apply signature_line|].
  split; [apply project_line|].
  split; [apply long_text_line_rule|].
  split; [intros H; split; [by apply marker_line|by apply marker_ends_loop]|].
  intros keyword tl. apply keyword_line.
Qed.

(** C7.  A line that none of the first five rules recognises (it begins
    with no signature, "Prj", long-text or "Phases" prefix and its first
    token is not a key of the dispatch table) never raises: the turn of the
    loop appends one entry to [unknown_entries], with key
    [SOURCE/<keyword>] and the tab-rejoined remaining tokens as a string
    value, leaves [entries] as it was, and the loop goes on with the next
    line. *)
Theorem C7_unknown_keyword_bucketed h raw rest keyword tl :
  Py.split Py.TAB (Py.strip raw) = keyword :: tl ->
  Py.startswith (Py.strip raw) CTF_CHANNEL_TEXT_FILE = false ->
  Py.startswith (Py.strip raw) CTF_COLON_CHANNEL_TEXT_FILE = false ->
  Py.startswith (Py.strip raw) CTF_PRJ = false ->
  Py.startswith (Py.strip raw) CTF_LONG_TEXT = false ->
  Py.startswith (Py.strip raw) CTF_PHASES = false ->
  CTF_HEADER_PARSE_MAP !! keyword = None ->
  let h' :=
    {| phases := phases h;
       entries := entries h;
       unknown_entries :=
         unknown_entries h
         ++ [mk_metadata ("SOURCE/" ++ keyword)
               (VStr (Py.join CTF_DELIMITER tl)) None None] |} in
  header_line MICRONS_UNITS h raw rest = Ok (Continue h')
  /\ header_loop MICRONS_UNITS h (raw :: rest)
     = header_loop MICRONS_UNITS h' rest.
Proof.
  intros E H1 H2 H3 H4 H5 Hk h'.
  assert (header_line MICRONS_UNITS h raw rest = Ok (Continue h')) as Hl.
  { rewrite (keyword_line _ _ _ _ _ E H1 H2 H3 H4 H5), Hk. reflexivity. }
  split; [exact Hl|]. simpl. by rewrite Hl.
Qed.

End Classifier.

Lemma C10_rules_match_by_prefix_witness :
  header_line "microns" CtfHeader_init (tabbed ["Prjx"; "foo"]) []
  = Ok (Continue (with_entries CtfHeader_init
          [mk_metadata "SOURCE/Prj" (VStr (tabbed [""; "foo"])) None None]))
  /\ header_loop "microns" CtfHeader_init
       [tabbed ["PhasesX"; "0"]; tabbed ["XCells"; "not a number"]]
     = Ok (with_phases CtfHeader_init [])
  /\ header_line "microns" CtfHeader_init (tabbed ["XStepQ"; "0,5"]) []
     = Ok (Continue (with_unknown CtfHeader_init
             (mk_metadata "SOURCE/XStepQ" (VStr "0,5") None None)))
  /\ header_line "microns" CtfHeader_init (tabbed ["XStep"; "0,5"]) []
     = Ok (Continue (with_entries CtfHeader_init
             [mk_metadata "SOURCE/XStep" (VFloat f_0_5) (Some "")
                (Some "microns")])).
Proof.
  split; [|split; [|split]].
  - destruct (C10_rules_match_by_prefix "microns" CtfHeader_init
                (tabbed ["Prjx"; "foo"]) [])
      as (_ & _ & H & _).
    rewrite H; reflexivity.
  - destruct (C10_rules_match_by_prefix "microns" CtfHeader_init
                (tabbed ["PhasesX"; "0"])
                [tabbed ["XCells"; "not a number"]])
      as (_ & _ & _ & _ & H & _).
    destruct (H eq_refl) as [_ ->]. reflexivity.
  - destruct (C10_rules_match_by_prefix "microns" CtfHeader_init
                (tabbed ["XStepQ"; "0,5"]) [])
      as (_ & _ & _ & _ & _ & H).
    rewrite (H "XStepQ" ["0,5"]); reflexivity.
  - destruct (C10_rules_match_by_prefix "microns" CtfHeader_init
                (tabbed ["XStep"; "0,5"]) [])
      as (_ & _ & _ & _ & _ & H).
    rewrite (H "XStep" ["0,5"]); reflexivity.
Defined.

Lemma C7_unknown_keyword_bucketed_witness :
  header_line "microns" CtfHeader_init (tabbed ["Mumble"; "foo"; "bar"]) []
  = Ok (Continue
          {| phases := PhDict ∅;
             entries := [];
             unknown_entries :=
               [mk_metadata "SOURCE/Mumble" (VStr (tabbed ["foo"; "bar"]))
                  None None] |}).
Proof.
  apply (C7_unknown_keyword_bucketed "microns" CtfHeader_init
           (tabbed ["Mumble"; "foo"; "bar"]) [] "Mumble" ["foo"; "bar"]);
    reflexivity.
Defined.

(** ** C8: the triplet parser *)

Lemma parse_float_triplet_cons text a b c extra :
  Py.split ";" (euro_to_us_dec_string text) = a :: b :: c :: extra ->
  parse_float_triplet text
  = (x ← Py.float a; y ← Py.float b; z ← Py.float c; Ok (x, y, z)).
Proof. intros E. unfold parse_float_triplet. rewrite E. reflexivity. Qed.

Lemma parse_float_triplet_short text :
  (length (Py.split ";" (euro_to_us_dec_string text)) < 3)%nat ->
  raises (parse_float_triplet text).
Proof.
  intros H. unfold parse_float_triplet.
  destruct (Py.split _ _) as [|a [|b [|c extra]]]; simpl in H; try lia.
  - by eexists.
  - rewrite index_0, bind_Ok. destruct (Py.float a); by eexists.
  - rewrite index_0, bind_Ok. destruct (Py.float a); [|by eexists].
    rewrite bind_Ok. cbn [Py.index lookup list_lookup]. rewrite bind_Ok.
    destruct (Py.float b); by eexists.
Qed.

(** C8.  The text, commas replaced, is split on ";".  With fewer than
    three fields the parser raises; with three or more the result is
    decided by the first three fields alone, each given to [float] in turn,
    so that any further ";"-separated text appended to the input changes
    nothing. *)
Theorem C8_triplet_first_three_fields text :
  let tokens := Py.split ";" (euro_to_us_dec_string text) in
  ((length tokens < 3)%nat -> raises (parse_float_triplet text))
  /\ (forall a b c extra,
        tokens = a :: b :: c :: extra ->
        parse_float_triplet text
        = (x ← Py.float a; y ← Py.float b; z ← Py.float c; Ok (x, y, z)))
  /\ (forall more,
        (3 <= length tokens)%nat ->
        parse_float_triplet (text ++ ";" ++ more) = parse_float_triplet text).
Proof.
  intros tokens. subst tokens.
  split; [apply parse_float_triplet_short|].
  split; [apply parse_float_triplet_cons|].
  intros more H.
  destruct (Py.split ";" (euro_to_us_dec_string text))
    as [|a [|b [|c extra]]] eqn:E; simpl in H; try lia.
  rewrite (parse_float_triplet_cons text a b c extra E).
  apply (parse_float_triplet_cons _ a b c
           (extra ++ Py.split ";" (euro_to_us_dec_string more))%list).
  unfold euro_to_us_dec_string in *.
  rewrite replace_app. simpl. rewrite split_app, E. reflexivity.
Qed.

Lemma C8_triplet_first_three_fields_witness :
  raises (parse_float_triplet "3,52;3.52")
  /\ parse_float_triplet "1,5;1.5;0.5" = Ok (f_1_5, f_1_5, f_0_5)
  /\ parse_float_triplet ("1,5;1.5;0.5" ++ ";" ++ "7;not a number")
     = Ok (f_1_5, f_1_5, f_0_5).
Proof.
  split; [|split].
  - apply (C8_triplet_first_three_fields "3,52;3.52"). simpl. lia.
  - destruct (C8_triplet_first_three_fields "1,5;1.5;0.5") as (_ & H & _).
    rewrite (H "1.5" "1.5" "0.5" []); reflexivity.
  - destruct (C8_triplet_first_three_fields "1,5;1.5;0.5") as (_ & _ & H).
    rewrite H; [reflexivity | simpl; lia].
Defined.

(** ** C5: the long-text instrument line *)

Ltac invert_binds :=
  repeat match goal with
         | H : (_ ≫= _) = Ok _ |- _ =>
             apply bind_inv_Ok in H as (? & ? & H); cbv beta in H
         end.

Lemma parse_ctf_long_text_short tokens :
  (length tokens < 13)%nat -> raises (parse_ctf_long_text tokens).
Proof.
  intros H. destruct (raises_or_returns (parse_ctf_long_text tokens))
    as [Hr|[es Hes]]; [done|].
  unfold parse_ctf_long_text in Hes. invert_binds.
  match goal with
  | H12 : Py.index tokens 12 = Ok _ |- _ =>
      apply index_inv, lookup_lt_Some in H12; lia
  end.
Qed.

Lemma parse_ctf_long_text_Raise tokens e :
  parse_ctf_long_text tokens = Raise e ->
  e = IndexError \/ e = ValueError \/ e = OverflowError.
Proof.
  unfold parse_ctf_long_text. intros H.
  repeat (apply bind_inv_Raise in H as [H|(? & _ & H)];
          [first [ apply index_Raise in H | apply int_Raise in H
                 | apply float_Raise in H
                 | apply int_of_float_Raise in H as [H|H] ];
           subst; auto|]).
  discriminate.
Qed.

(** C5.  The six values are read at the zero-based offsets 2, 4, 6, 8, 10
    and 12 of the token list: Mag, Coverage and Device by [int], KV by
    [float] and then [int] (truncation), TiltAngle and TiltAxis by [float],
    each token stripped first.  The call succeeds exactly when all six
    parse, and then returns the six entries SOURCE/Mag, SOURCE/Coverage,
    SOURCE/Device, SOURCE/KV, SOURCE/TiltAngle, SOURCE/TiltAxis in that
    order, built without annotation and without unit; the header pass
    appends them to [entries].  With fewer than 13 tokens the call raises:
    [IndexError] at the first offset that is missing, or before that the
    [ValueError] or [OverflowError] of a token that did not parse. *)
Theorem C5_long_text_fixed_offsets tokens :
  ((length tokens < 13)%nat ->
   exists e, parse_ctf_long_text tokens = Raise e
             /\ (e = IndexError \/ e = ValueError \/ e = OverflowError))
  /\ (forall es,
        parse_ctf_long_text tokens = Ok es <->
        exists t2 t4 t6 t8 t10 t12 mag coverage device kv_float kv
               tilt_angle tilt_axis,
          tokens !! 2%nat = Some t2 /\ tokens !! 4%nat = Some t4
          /\ tokens !! 6%nat = Some t6 /\ tokens !! 8%nat = Some t8
          /\ tokens !! 10%nat = Some t10 /\ tokens !! 12%nat = Some t12
          /\ Py.int (Py.strip t2) = Ok mag
          /\ Py.int (Py.strip t4) = Ok coverage
          /\ Py.int (Py.strip t6) = Ok device
          /\ Py.float (Py.strip t8) = Ok kv_float
          /\ Py.int_of_float kv_float = Ok kv
          /\ Py.float (Py.strip t10) = Ok tilt_angle
          /\ Py.float (Py.strip t12) = Ok tilt_axis
          /\ es = [ mk_metadata "SOURCE/Mag" (VInt mag) None None;
                    mk_metadata "SOURCE/Coverage" (VInt coverage) None None;
                    mk_metadata "SOURCE/Device" (VInt device) None None;
                    mk_metadata "SOURCE/KV" (VInt kv) None None;
                    mk_metadata "SOURCE/TiltAngle" (VFloat tilt_angle)
                      None None;
                    mk_metadata "SOURCE/TiltAxis" (VFloat tilt_axis)
                      None None ])
  /\ (forall units h raw rest es,
        tokens = Py.split Py.TAB (Py.strip raw) ->
        Py.startswith (Py.strip raw) CTF_LONG_TEXT = true ->
        parse_ctf_long_text tokens = Ok es ->
        header_line units h raw rest
        = Ok (Continue {| phases := phases h;
                          entries := entries h ++ es;
                          unknown_entries := unknown_entries h |})).
Proof.
  split.
  { intros H. destruct (parse_ctf_long_text_short tokens H) as [e He].
    exists e. split; [done|]. by apply parse_ctf_long_text_Raise in He. }
  split.
  - intros es. split.
    + intros H. unfold parse_ctf_long_text in H. invert_binds.
      repeat match goal with
             | Hi : Py.index _ _ = Ok _ |- _ => apply index_inv in Hi
             end.
      injection H as <-. do 13 eexists. repeat split; eassumption.
    + intros (t2 & t4 & t6 & t8 & t10 & t12 & mag & coverage & device
              & kv_float & kv & tilt_angle & tilt_axis
              & H2 & H4 & H6 & H8 & H10 & H12
              & Hm & Hc & Hd & Hkf & Hk & Ha & Hx & ->).
      unfold parse_ctf_long_text.
      rewrite (index_Some _ _ _ H2), bind_Ok, Hm, bind_Ok,
        (index_Some _ _ _ H4), bind_Ok, Hc, bind_Ok,
        (index_Some _ _ _ H6), bind_Ok, Hd, bind_Ok,
        (index_Some _ _ _ H8), bind_Ok, Hkf, bind_Ok, Hk, bind_Ok,
        (index_Some _ _ _ H10), bind_Ok, Ha, bind_Ok,
        (index_Some _ _ _ H12), bind_Ok, Hx, bind_Ok.
      reflexivity.
  - intros units h raw rest es -> Hp Hes.
    rewrite (long_text_line_rule _ _ _ _ Hp), Hes. reflexivity.
Qed.

Lemma C5_long_text_fixed_offsets_witness :
  raises (parse_ctf_long_text
            (Py.split Py.TAB
               (tabbed [CTF_LONG_TEXT; "Mag"; "100"; "Coverage"; "100";
                        "Device"; "0"; "KV"; "20.7"; "TiltAngle"; "70.0";
                        "TiltAxis"])))
  /\ header_line "microns" CtfHeader_init
       (long_text_line "20.7" "70.0" "0.5") []
     = Ok (Continue
             {| phases := PhDict ∅;
                entries :=
                  [ mk_metadata "SOURCE/Mag" (VInt 100) None None;
                    mk_metadata "SOURCE/Coverage" (VInt 100) None None;
                    mk_metadata "SOURCE/Device" (VInt 0) None None;
                    mk_metadata "SOURCE/KV" (VInt 20) None None;
                    mk_metadata "SOURCE/TiltAngle" (VFloat f_70) None None;
                    mk_metadata "SOURCE/TiltAxis" (VFloat f_0_5) None None ];
                unknown_entries := [] |}).
Proof.
  split.
  - destruct (C5_long_text_fixed_offsets
                (Py.split Py.TAB
                   (tabbed [CTF_LONG_TEXT; "Mag"; "100"; "Coverage"; "100";
                            "Device"; "0"; "KV"; "20.7"; "TiltAngle"; "70.0";
                            "TiltAxis"]))) as (H & _ & _).
    destruct H as (e & He & _); [vm_compute; lia|]. by exists e.
  - destruct (C5_long_text_fixed_offsets
                (Py.split Py.TAB
                   (Py.strip (long_text_line "20.7" "70.0" "0.5"))))
      as (_ & Hiff & Hline).
    apply (Hline "microns" CtfHeader_init _ []); [reflexivity..|].
    apply Hiff.
    exists "100", "100", "0", "20.7", "70.0", "0.5", 100, 100, 0.
    exists (S754_finite false 5826532017910579 (-48)), 20, f_70, f_0_5.
    repeat split; reflexivity.
Defined.

(** ** C3, C4, C6: the phase table *)


(** What a row that parsed went through. *)
Lemma parse_phase_row_inv i raw p :
  parse_phase_row i raw = Ok p ->
  let tokens := Py.split Py.TAB (Py.strip raw) in
  exists t0 t1 t2 t3 code opt,
    tokens !! 0%nat = Some t0 /\ tokens !! 1%nat = Some t1
    /\ tokens !! 2%nat = Some t2 /\ tokens !! 3%nat = Some t3
    /\ parse_float_triplet (Py.strip t0) = Ok (lattice_constants p)
    /\ parse_float_triplet (Py.strip t1) = Ok (lattice_angles p)
    /\ name p = Py.strip t2
    /\ Py.int t3 = Ok code
    /\ LaueGroup.call code = Ok (group p)
    /\ phase_optionals tokens = Ok opt
    /\ opt = (comment p, space_group p, internal1 p, internal2 p)
    /\ index p = i + 1.
Proof.
  intros H tokens. unfold parse_phase_row in H. fold tokens in H.
  invert_binds.
  repeat match goal with
         | Hi : Py.index _ _ = Ok _ |- _ => apply index_inv in Hi
         end.
  match goal with
  | Ho : phase_optionals _ = Ok ?o |- _ => destruct o as [[[c sg] i1] i2]
  end.
  injection H as <-. simpl. do 6 eexists. repeat split; eassumption.
Qed.

Lemma LaueGroup_call_inv code g :
  LaueGroup.call code = Ok g -> 1 <= code <= 12 /\ LaueGroup.to_int g = code.
Proof.
  unfold LaueGroup.call. intros H.
  repeat (match type of H with
          | match ?c with _ => _ end = _ => destruct c
          end; try discriminate);
    injection H as <-; simpl; lia.
Qed.

Lemma LaueGroup_call_Raise code e :
  LaueGroup.call code = Raise e -> e = ValueError.
Proof.
  unfold LaueGroup.call. intros H.
  repeat (match type of H with
          | match ?c with _ => _ end = _ => destruct c
          end; try discriminate);
    by injection H.
Qed.

Lemma LaueGroup_call_out_of_range code :
  ~ (1 <= code <= 12) -> LaueGroup.call code = Raise ValueError.
Proof.
  intros H. destruct (LaueGroup.call code) as [g|e] eqn:E.
  - by apply LaueGroup_call_inv in E as [? _].
  - by apply LaueGroup_call_Raise in E as ->.
Qed.

(** The loop of [parse_phases]: what it returns when it returns. *)
Lemma parse_phases_from_inv n : forall i file acc ps rest,
  parse_phases_from n i file acc = Ok (ps, rest) ->
  exists new,
    ps = (acc ++ new)%list /\ length new = n
    /\ file = (take n file ++ rest)%list /\ length (take n file) = n
    /\ forall k p, new !! k = Some p ->
         exists raw, file !! k = Some raw
                     /\ parse_phase_row (i + Z.of_nat k) raw = Ok p.
Proof.
  induction n as [|n IH]; intros i file acc ps rest H; simpl in H.
  - injection H as <- <-. exists []. rewrite app_nil_r, take_0.
    repeat split; try done.
  - destruct file as [|raw file]; [discriminate|].
    cbn [Py.next] in H. rewrite bind_Ok in H.
    destruct (parse_phase_row i raw) as [p0|] eqn:Hrow; [|discriminate].
    rewrite bind_Ok in H.
    apply IH in H as (new & -> & Hlen & Hfile & Htake & Hrows).
    exists (p0 :: new). rewrite <- app_assoc. simpl.
    repeat split; try done.
    + by rewrite Hlen.
    + by rewrite <- Hfile.
    + by rewrite Htake.
    + intros [|k] p Hk; simpl in Hk.
      * injection Hk as <-. exists raw. by rewrite Z.add_0_r.
      * apply Hrows in Hk as (raw' & Hraw' & Hp). exists raw'.
        split; [done|]. rewrite <- Hp. f_equal. lia.
Qed.

(** The loop returns whenever the next [n] lines are there and parse. *)
Lemma parse_phases_from_returns n : forall i file acc,
  (forall k, (k < n)%nat ->
     exists raw, file !! k = Some raw
                 /\ returns (parse_phase_row (i + Z.of_nat k) raw)) ->
  returns (parse_phases_from n i file acc).
Proof.
  induction n as [|n IH]; intros i file acc H; simpl.
  - by eexists.
  - destruct (H 0%nat) as (raw & Hraw & [p Hp]); [lia|].
    destruct file as [|raw' file]; [discriminate|].
    injection Hraw as ->. cbn [Py.next]. rewrite bind_Ok.
    rewrite Z.add_0_r in Hp. rewrite Hp, bind_Ok.
    apply IH. intros k Hk. destruct (H (S k)) as (r & Hr & Hret); [lia|].
    exists r. split; [done|].
    by replace (i + 1 + Z.of_nat k) with (i + Z.of_nat (S k)) by lia.
Qed.

(** The loop raises as soon as one of the [n] lines does not parse. *)
Lemma parse_phases_from_raises n : forall i file acc k raw,
  (k < n)%nat -> file !! k = Some raw ->
  (forall j, raises (parse_phase_row j raw)) ->
  raises (parse_phases_from n i file acc).
Proof.
  induction n as [|n IH]; intros i file acc k raw Hk Hraw Hbad; [lia|].
  simpl. destruct file as [|r0 file]; [discriminate|].
  cbn [Py.next]. rewrite bind_Ok.
  destruct k as [|k]; simpl in Hraw.
  - injection Hraw as ->. by apply raises_bind.
  - destruct (parse_phase_row i r0) as [p0|e]; [|by exists e].
    rewrite bind_Ok. apply (IH _ _ _ k raw); [lia|done..].
Qed.




(** C4.  The phases that [parse_phases] returns are as many as the declared
    count, and the one at position [k] (from 0) was built from the line at
    position [k] of the cursor and has index [k + 1], whatever that line
    holds; the call returns whenever each of the lines parses as a row. *)
Theorem C4_phase_index_is_position file N :
  (forall ps rest,
     parse_phases file N = Ok (ps, rest) ->
     length ps = Z.to_nat N
     /\ forall k p, ps !! k = Some p ->
          index p = Z.of_nat k + 1
          /\ exists raw, file !! k = Some raw
                         /\ parse_phase_row (Z.of_nat k) raw = Ok p)
  /\ (forall i raw p, parse_phase_row i raw = Ok p -> index p = i + 1)
  /\ ((forall k, (k < Z.to_nat N)%nat ->
         exists raw, file !! k = Some raw
                     /\ returns (parse_phase_row (Z.of_nat k) raw)) ->
      returns (parse_phases file N)).
Proof.
  split; [|split].
  - intros ps rest H. unfold parse_phases in H.
    apply parse_phases_from_inv in H as (new & -> & Hlen & _ & _ & Hrows).
    simpl. split; [done|]. intros k p Hk.
    destruct (Hrows k p Hk) as (raw & Hraw & Hp). rewrite Z.add_0_l in Hp.
    split; [|by exists raw].
    by apply parse_phase_row_inv in Hp as (? & ? & ? & ? & ? & ? & Hp);
      destruct_and!.
  - intros i raw p Hp.
    by apply parse_phase_row_inv in Hp as (? & ? & ? & ? & ? & ? & Hp);
      destruct_and!.
  - intros H. apply parse_phases_from_returns. intros k Hk.
    destruct (H k Hk) as (raw & Hraw & Hret). exists raw.
    by rewrite Z.add_0_l.
Qed.

Lemma C4_phase_index_is_position_witness :
  exists p1 p2 rest,
    parse_phases [nickel_row; iron_row; "1 2 3"] 2 = Ok ([p1; p2], rest)
    /\ index p1 = 1 /\ index p2 = 2.
Proof.
  destruct (parse_phases [nickel_row; iron_row; "1 2 3"] 2)
    as [[ps rest]|] eqn:E; [|discriminate].
  destruct (C4_phase_index_is_position [nickel_row; iron_row; "1 2 3"] 2)
    as (H & _ & _).
  destruct (H ps rest E) as [Hlen Hidx].
  destruct ps as [|p1 [|p2 [|p3 ps]]]; try discriminate.
  exists p1, p2, rest. split; [reflexivity|].
  split; [apply (Hidx 0%nat p1 eq_refl) | apply (Hidx 1%nat p2 eq_refl)].
Defined.

Lemma parse_phase_row_bad_code raw t3 code :
  Py.split Py.TAB (Py.strip raw) !! 3%nat = Some t3 ->
  Py.int t3 = Ok code ->
  ~ (1 <= code <= 12) ->
  forall i, raises (parse_phase_row i raw).
Proof.
  intros H3 Hi Hcode i.
  destruct (raises_or_returns (parse_phase_row i raw)) as [|[p Hp]]; [done|].
  apply parse_phase_row_inv in Hp
    as (t0 & t1 & t2 & t3' & code' & opt & _ & _ & _ & H3' & _ & _ & _
        & Hi' & Hg & _).
  rewrite H3 in H3'. injection H3' as <-.
  rewrite Hi in Hi'. injection Hi' as <-.
  by apply LaueGroup_call_inv in Hg as [? _].
Qed.

(** C6.  A row parses only if its field 3 is read by [int] as a code
    between 1 and 12, and the group stored is the member with that very
    code: UNKNOWN_SYMMETRY is stored for code 12 and for no other.  A row
    whose field 3 is an integer outside 1..12 raises ([ValueError] from the
    enum, when the three fields before it parse), and with it
    [parse_phases] on any table that reaches the row, and the header pass
    whose marker line announces that table. *)
Theorem C6_laue_code_must_resolve :
  (forall i raw p,
     parse_phase_row i raw = Ok p ->
     exists t3 code,
       Py.split Py.TAB (Py.strip raw) !! 3%nat = Some t3
       /\ Py.int t3 = Ok code /\ 1 <= code <= 12
       /\ LaueGroup.to_int (group p) = code
       /\ (group p = UNKNOWN_SYMMETRY <-> code = 12))
  /\ (forall i raw t3 code,
        Py.split Py.TAB (Py.strip raw) !! 3%nat = Some t3 ->
        Py.int t3 = Ok code ->
        ~ (1 <= code <= 12) ->
        raises (parse_phase_row i raw))
  /\ (forall i raw t0 t1 t2 t3 lc la code,
        Py.split Py.TAB (Py.strip raw) !! 0%nat = Some t0 ->
        Py.split Py.TAB (Py.strip raw) !! 1%nat = Some t1 ->
        Py.split Py.TAB (Py.strip raw) !! 2%nat = Some t2 ->
        Py.split Py.TAB (Py.strip raw) !! 3%nat = Some t3 ->
        parse_float_triplet (Py.strip t0) = Ok lc ->
        parse_float_triplet (Py.strip t1) = Ok la ->
        Py.int t3 = Ok code ->
        ~ (1 <= code <= 12) ->
        parse_phase_row i raw = Raise ValueError)
  /\ (forall file N k raw t3 code,
        (k < Z.to_nat N)%nat -> file !! k = Some raw ->
        Py.split Py.TAB (Py.strip raw) !! 3%nat = Some t3 ->
        Py.int t3 = Ok code ->
        ~ (1 <= code <= 12) ->
        raises (parse_phases file N))
  /\ (forall units h marker t1 file N k raw t3 code,
        Py.startswith (Py.strip marker) CTF_PHASES = true ->
        Py.split Py.TAB (Py.strip marker) !! 1%nat = Some t1 ->
        Py.int t1 = Ok N ->
        (k < Z.to_nat N)%nat -> file !! k = Some raw ->
        Py.split Py.TAB (Py.strip raw) !! 3%nat = Some t3 ->
        Py.int t3 = Ok code ->
        ~ (1 <= code <= 12) ->
        raises (header_loop units h (marker :: file))).
Proof.
  split; [|split; [|split; [|split]]].
  - intros i raw p Hp.
    apply parse_phase_row_inv in Hp
      as (t0 & t1 & t2 & t3 & code & opt & _ & _ & _ & H3 & _ & _ & _
          & Hi & Hg & _).
    exists t3, code. apply LaueGroup_call_inv in Hg as Hc.
    destruct Hc as [Hr Hv]. repeat split; try done; try lia.
    + intros Hu. rewrite Hu in Hv. by rewrite <- Hv.
    + intros Hu. rewrite Hu in Hg. by injection Hg.
  - intros i raw t3 code H3 Hi Hc.
    by apply (parse_phase_row_bad_code raw t3 code).
  - intros i raw t0 t1 t2 t3 lc la code H0 H1 H2 H3 Hlc Hla Hi Hc.
    unfold parse_phase_row.
    rewrite (index_Some _ _ _ H0), bind_Ok, Hlc, bind_Ok,
      (index_Some _ _ _ H1), bind_Ok, Hla, bind_Ok,
      (index_Some _ _ _ H2), bind_Ok, (index_Some _ _ _ H3), bind_Ok,
      Hi, bind_Ok, (LaueGroup_call_out_of_range code Hc).
    reflexivity.
  - intros file N k raw t3 code Hk Hraw H3 Hi Hc. unfold parse_phases.
    apply (parse_phases_from_raises _ _ _ _ k raw); [done..|].
    by apply (parse_phase_row_bad_code raw t3 code).
  - intros units h marker t1 file N k raw t3 code Hm H1 HN Hk Hraw H3 Hi Hc.
    rewrite (marker_ends_loop _ _ _ _ Hm). unfold marker_outcome.
    rewrite (index_Some _ _ _ H1), bind_Ok, HN, bind_Ok.
    apply raises_bind. unfold parse_phases.
    apply (parse_phases_from_raises _ _ _ _ k raw); [done..|].
    by apply (parse_phase_row_bad_code raw t3 code).
Qed.

Lemma C6_laue_code_must_resolve_witness :
  parse_phase_row 0 (tabbed ["3.52;3.52;3.52"; "90;90;90"; "Nickel"; "13"])
  = Raise ValueError
  /\ raises (header_loop "microns" CtfHeader_init
               [ tabbed ["Phases"; "2"]; nickel_row;
                 tabbed ["2.87;2.87;2.87"; "90;90;90"; "Iron"; "0"] ]).
Proof.
  destruct C6_laue_code_must_resolve as (_ & _ & Hrow & _ & Hloop).
  split.
  - apply (Hrow 0 _ "3.52;3.52;3.52" "90;90;90" "Nickel" "13"
             (S754_finite false 7926335344172073 (-51),
              S754_finite false 7926335344172073 (-51),
              S754_finite false 7926335344172073 (-51))
             (S754_finite false 6333186975989760 (-46),
              S754_finite false 6333186975989760 (-46),
              S754_finite false 6333186975989760 (-46)) 13);
      [reflexivity..|lia].
  - apply (Hloop "microns" CtfHeader_init _ "2" _ 2 1%nat
             (tabbed ["2.87;2.87;2.87"; "90;90;90"; "Iron"; "0"]) "0" 0);
      [reflexivity..|simpl; lia|reflexivity|reflexivity|reflexivity|lia].
Defined.

(** ** C2: what [Header.phases] holds *)

Lemma parse_phases_indexed file N ps rest :
  parse_phases file N = Ok (ps, rest) ->
  length ps = Z.to_nat N
  /\ forall k p, ps !! k = Some p -> index p = Z.of_nat k + 1.
Proof.
  intros H. unfold parse_phases in H.
  apply parse_phases_from_inv in H as (new & -> & Hlen & _ & _ & Hrows).
  simpl. split; [done|]. intros k p Hk.
  destruct (Hrows k p Hk) as (raw & _ & Hp). rewrite Z.add_0_l in Hp.
  apply parse_phase_row_inv in Hp
    as (t0 & t1 & t2 & t3 & code & opt & _ & _ & _ & _ & _ & _ & _ & _ & _
        & _ & _ & Hidx).
  exact Hidx.
Qed.

Lemma marker_outcome_inv h tokens rest h' :
  marker_outcome h tokens rest = Ok h' ->
  exists t1 N ps rest',
    tokens !! 1%nat = Some t1 /\ Py.int t1 = Ok N
    /\ parse_phases rest N = Ok (ps, rest') /\ h' = with_phases h ps.
Proof.
  unfold marker_outcome. intros H.
  apply bind_inv_Ok in H as (t1 & H1 & H). apply index_inv in H1.
  apply bind_inv_Ok in H as (N & HN & H).
  apply bind_inv_Ok in H as ([ps rest'] & Hps & H).
  injection H as <-. by exists t1, N, ps, rest'.
Qed.

(** C2 (the code departs from its own declaration).  [CtfHeader] declares
    [phases] as a dict from index to phase and starts it as the empty
    dict, and so it stays when the file has no marker.  After a marker
    [_parse_header] stores in its place the list that [parse_phases]
    returns.  On the two-phase table the header holds the list of the two
    phases, of indices 1 and 2: the subscript 1 gives the phase of index
    2, the subscript 2 raises [IndexError], and no phase is found under
    its own index. *)
Theorem C2_phases_not_keyed_by_index :
  (exists h p1 p2,
     _parse_header "microns" two_phase_file = Ok h
     /\ phases h = PhList [p1; p2]
     /\ phases_len (phases h) = 2
     /\ index p1 = 1 /\ index p2 = 2
     /\ phases_getitem (phases h) 1 = Ok p2
     /\ phases_getitem (phases h) 2 = Raise IndexError
     /\ ~ (forall i, 1 <= i <= 2 ->
             exists p, phases_getitem (phases h) i = Ok p /\ index p = i))
  /\ (exists h0,
        _parse_header "microns"
          ["Channel Text File"; tabbed ["XCells"; "10"]] = Ok h0
        /\ phases h0 = PhDict ∅).
Proof.
  split.
  - eexists _, _, _. split; [reflexivity|]. split; [reflexivity|].
    repeat split; try reflexivity.
    intros H. destruct (H 2) as (p & Hp & _); [lia|]. discriminate.
  - eexists. split; reflexivity.
Qed.

(** ** C9: the emitted sequence *)

Section Emitter.

Variables MICRONS_UNITS DEGREES_UNITS ANGSTROM_UNITS : string.
Variable CTF_LAUE_CLASS_MAP : gmap Z string.

(** A turn of the header loop that goes on leaves [phases] alone. *)
Lemma header_line_Continue_phases h raw rest h' :
  header_line MICRONS_UNITS h raw rest = Ok (Continue h') ->
  phases h' = phases h.
Proof.
  intros H.
  destruct (Py.startswith (Py.strip raw) CTF_CHANNEL_TEXT_FILE) eqn:H1.
  { rewrite signature_line in H by auto. by injection H as <-. }
  destruct (Py.startswith (Py.strip raw) CTF_COLON_CHANNEL_TEXT_FILE) eqn:H2.
  { rewrite signature_line in H by auto. by injection H as <-. }
  destruct (Py.startswith (Py.strip raw) CTF_PRJ) eqn:H3.
  { rewrite project_line in H by auto. by injection H as <-. }
  destruct (Py.startswith (Py.strip raw) CTF_LONG_TEXT) eqn:H4.
  { rewrite long_text_line_rule in H by auto.
    apply bind_inv_Ok in H as (es & _ & H). by injection H as <-. }
  destruct (Py.startswith (Py.strip raw) CTF_PHASES) eqn:H5.
  { rewrite marker_line in H by auto.
    apply bind_inv_Ok in H as (h0 & _ & H). discriminate. }
  destruct (split_cons Py.TAB (Py.strip raw)) as (keyword & tl & E).
  rewrite (keyword_line _ _ _ _ _ _ E H1 H2 H3 H4 H5) in H.
  destruct (CTF_HEADER_PARSE_MAP !! keyword).
  - apply bind_inv_Ok in H as (v & _ & H). by injection H as <-.
  - by injection H as <-.
Qed.

(** A turn that ends the loop is the marker's. *)
Lemma header_line_Break h raw rest h' :
  header_line MICRONS_UNITS h raw rest = Ok (Break h') ->
  marker_outcome h (Py.split Py.TAB (Py.strip raw)) rest = Ok h'.
Proof.
  intros H.
  destruct (Py.startswith (Py.strip raw) CTF_CHANNEL_TEXT_FILE) eqn:H1.
  { rewrite signature_line in H by auto. discriminate. }
  destruct (Py.startswith (Py.strip raw) CTF_COLON_CHANNEL_TEXT_FILE) eqn:H2.
  { rewrite signature_line in H by auto. discriminate. }
  destruct (Py.startswith (Py.strip raw) CTF_PRJ) eqn:H3.
  { rewrite project_line in H by auto. discriminate. }
  destruct (Py.startswith (Py.strip raw) CTF_LONG_TEXT) eqn:H4.
  { rewrite long_text_line_rule in H by auto.
    apply bind_inv_Ok in H as (es & _ & H). discriminate. }
  destruct (Py.startswith (Py.strip raw) CTF_PHASES) eqn:H5.
  { rewrite marker_line in H by auto.
    apply bind_inv_Ok in H as (h0 & Hm & H). by injection H as <-. }
  destruct (split_cons Py.TAB (Py.strip raw)) as (keyword & tl & E).
  rewrite (keyword_line _ _ _ _ _ _ E H1 H2 H3 H4 H5) in H.
  destruct (CTF_HEADER_PARSE_MAP !! keyword).
  - apply bind_inv_Ok in H as (v & _ & H). discriminate.
  - discriminate.
Qed.

(** The phases of the header that the loop returns: those it started
    with, or a list whose element at position [k] has index [k + 1]. *)
Lemma header_loop_phases file : forall h h',
  header_loop MICRONS_UNITS h file = Ok h' ->
  phases h' = phases h
  \/ exists ps, phases h' = PhList ps
                /\ forall k p, ps !! k = Some p -> index p = Z.of_nat k + 1.
Proof.
  induction file as [|raw rest IH]; intros h h' H; simpl in H.
  - injection H as <-. by left.
  - destruct (header_line MICRONS_UNITS h raw rest) as [[h0|h0]|] eqn:Hl;
      [| |discriminate].
    + apply header_line_Continue_phases in Hl.
      apply IH in H as [H|H]; [left; congruence|by right].
    + injection H as <-. right. apply header_line_Break in Hl.
      apply marker_outcome_inv in Hl
        as (t1 & N & ps & rest' & _ & _ & Hps & ->).
      exists ps. split; [done|]. by apply parse_phases_indexed in Hps as [_ ?].
Qed.

Lemma emit_phases_concat D A M (ps : list CtfPhase) : forall es,
  emit_phases D A M es ps
  = (es ++ concat (map (phase_entries D A M) ps))%list.
Proof.
  induction ps as [|p ps IH]; intros es; cbn [emit_phases map concat].
  - by rewrite app_nil_r.
  - by rewrite IH, <- app_assoc.
Qed.

(** C9.  When the header pass returns a header, [parse_header] returns its
    [entries] followed by the entries of its phases, phase after phase in
    the order of the list, in which the phase at position [k] has index
    [k + 1]; each phase gives eight entries, keyed LaueGroup (the name of
    the enum member), Internal1, Internal2, LatticeAngles (unit
    [DEGREES_UNITS]), LatticeConstants (unit [ANGSTROM_UNITS]), Name,
    SpaceGroup and Comment under [SOURCE/Phases/Phase <index>/], all with
    the annotation "Phase <index>, <class>" where <class> is the entry of
    [CTF_LAUE_CLASS_MAP] at the phase index, or "Unknown" when there is
    none.  Nothing in the result comes from [unknown_entries].  When the
    header pass raises, so does [parse_header]. *)
Theorem C9_entries_then_phases lines :
  (forall h,
     _parse_header MICRONS_UNITS lines = Ok h ->
     exists ps,
       (phases h = PhList ps \/ phases h = PhDict ∅ /\ ps = [])
       /\ (forall k p, ps !! k = Some p -> index p = Z.of_nat k + 1)
       /\ parse_header MICRONS_UNITS DEGREES_UNITS ANGSTROM_UNITS
            CTF_LAUE_CLASS_MAP lines
          = Ok (entries h
                ++ concat
                     (map
                        (fun p =>
                           (let ann :=
                             Some ("Phase " ++ Py.str_of_int (index p)
                                   ++ ", "
                                   ++ default "Unknown"
                                        (CTF_LAUE_CLASS_MAP !! index p)) in
                           let key field :=
                             "SOURCE/Phases/Phase "
                             ++ Py.str_of_int (index p) ++ "/" ++ field in
                           [ mk_metadata (key "LaueGroup")
                               (VStr (LaueGroup.name (group p))) ann None;
                             mk_metadata (key "Internal1")
                               (VStr (internal1 p)) ann None;
                             mk_metadata (key "Internal2")
                               (VStr (internal2 p)) ann None;
                             mk_metadata (key "LatticeAngles")
                               (VTriplet (lattice_angles p)) ann
                               (Some DEGREES_UNITS);
                             mk_metadata (key "LatticeConstants")
                               (VTriplet (lattice_constants p)) ann
                               (Some ANGSTROM_UNITS);
                             mk_metadata (key "Name")
                               (VStr (name p)) ann None;
                             mk_metadata (key "SpaceGroup")
                               (VInt (space_group p)) ann None;
                             mk_metadata (key "Comment")
                               (VStr (comment p)) ann None ])%string)
                        ps))%list)
  /\ (forall e,
        _parse_header MICRONS_UNITS lines = Raise e ->
        parse_header MICRONS_UNITS DEGREES_UNITS ANGSTROM_UNITS
          CTF_LAUE_CLASS_MAP lines
        = Raise e).
Proof.
  split.
  - intros h Hh. unfold parse_header. rewrite Hh, bind_Ok.
    unfold _parse_header in Hh.
    apply header_loop_phases in Hh as [Hh|(ps & Hps & Hidx)].
    + exists []. rewrite Hh. simpl. split; [by right|].
      split; [by intros k p|]. by rewrite app_nil_r.
    + exists ps. rewrite Hps. split; [by left|]. split; [done|].
      rewrite emit_phases_concat. reflexivity.
  - intros e He. unfold parse_header. by rewrite He.
Qed.

End Emitter.

Lemma C9_entries_then_phases_witness :
  exists h es,
    _parse_header "microns" small_file = Ok h
    /\ entries h = [mk_metadata "SOURCE/XCells" (VInt 10) (Some "") (Some "")]
    /\ parse_header "microns" "degrees" "angstrom" {[ 1 := "m-3m" ]}
         small_file
       = Ok (entries h ++ es)%list
    /\ map source_path es
       = [ "SOURCE/Phases/Phase 1/LaueGroup";
           "SOURCE/Phases/Phase 1/Internal1";
           "SOURCE/Phases/Phase 1/Internal2";
           "SOURCE/Phases/Phase 1/LatticeAngles";
           "SOURCE/Phases/Phase 1/LatticeConstants";
           "SOURCE/Phases/Phase 1/Name";
           "SOURCE/Phases/Phase 1/SpaceGroup";
           "SOURCE/Phases/Phase 1/Comment";
           "SOURCE/Phases/Phase 2/LaueGroup";
           "SOURCE/Phases/Phase 2/Internal1";
           "SOURCE/Phases/Phase 2/Internal2";
           "SOURCE/Phases/Phase 2/LatticeAngles";
           "SOURCE/Phases/Phase 2/LatticeConstants";
           "SOURCE/Phases/Phase 2/Name";
           "SOURCE/Phases/Phase 2/SpaceGroup";
           "SOURCE/Phases/Phase 2/Comment" ]
    /\ map annotation es
       = (replicate 8 (Some "Phase 1, m-3m")
          ++ replicate 8 (Some "Phase 2, Unknown"))%list
    /\ map md_value (take 1 es) = [VStr "CUBIC_HIGH"]
    /\ map units (take 8 es)
       = [ None; None; None; Some "degrees"; Some "angstrom"; None; None;
           None ].
Proof.
  destruct (_parse_header "microns" small_file) as [h|] eqn:E;
    [|discriminate].
  destruct (C9_entries_then_phases "microns" "degrees" "angstrom"
              {[ 1 := "m-3m" ]} small_file) as [H _].
  destruct (H h E) as (ps & Hps & _ & Hout).
  vm_compute in E. injection E as <-.
  destruct Hps as [Hps|[Hps _]]; [|discriminate].
  injection Hps as <-.
  eexists _, _. split; [reflexivity|]. split; [reflexivity|].
  split; [exact Hout|]. repeat split; reflexivity.
Defined.

(** * Further properties of the parser *)

(** ** Splitting and rejoining a line *)

Lemma join_cons2 sep x y l :
  Py.join sep (x :: y :: l) = x ++ sep ++ Py.join sep (y :: l).
Proof. reflexivity. Qed.

(** Rejoining the fields of a text with the separator gives the text
    back. *)
Lemma join_split sep s :
  Py.join (String sep "") (Py.split sep s) = s.
Proof.
  induction s as [|c s IH]; [reflexivity|]. cbn [Py.split].
  destruct (split_cons sep s) as (t & ts & E). rewrite E in IH |- *.
  destruct (Ascii.eqb c sep) eqn:Hc.
  - apply Ascii.eqb_eq in Hc as ->. rewrite join_cons2, IH. reflexivity.
  - destruct ts as [|u ts].
    + cbn [Py.join] in IH |- *. by rewrite IH.
    + rewrite join_cons2 in IH |- *. by rewrite <- IH.
Qed.

(** The first field holds no separator. *)
Lemma split_head_no_sep sep s t ts :
  Py.split sep s = t :: ts -> Py.split sep t = [t].
Proof.
  revert t ts. induction s as [|c s IH]; intros t ts; cbn [Py.split].
  - by intros [= <- <-].
  - destruct (Ascii.eqb c sep) eqn:Hc; [by intros [= <- <-]|].
    destruct (split_cons sep s) as (u & us & E). rewrite E.
    intros [= <- <-]. cbn [Py.split]. rewrite Hc, (IH u us E). reflexivity.
Qed.

(** X3.  The keyword of a line is its text before the first tab, and the
    rejoined remaining tokens are its text after the first tab, tabs
    included: keyword, tab and payload put together give the stripped line
    back. *)
Theorem X3_keyword_and_payload_rebuild_line raw keyword tl :
  Py.split Py.TAB (Py.strip raw) = keyword :: tl ->
  Py.split Py.TAB keyword = [keyword]
  /\ (tl = [] -> Py.strip raw = keyword)
  /\ (tl <> [] ->
      Py.strip raw = keyword ++ CTF_DELIMITER ++ Py.join CTF_DELIMITER tl).
Proof.
  intros E. split; [by apply (split_head_no_sep _ _ _ _ E)|].
  pose proof (join_split Py.TAB (Py.strip raw)) as J. rewrite E in J.
  split.
  - intros ->. by rewrite <- J.
  - intros Hne. destruct tl as [|t tl]; [done|]. by rewrite <- J.
Qed.

Lemma X3_keyword_and_payload_rebuild_line_witness :
  Py.strip (tabbed ["Author"; "A. Turing"; "B. Russell"] ++ "  ")
  = "Author" ++ CTF_DELIMITER
    ++ Py.join CTF_DELIMITER ["A. Turing"; "B. Russell"].
Proof.
  apply (X3_keyword_and_payload_rebuild_line
           (tabbed ["Author"; "A. Turing"; "B. Russell"] ++ "  ")
           "Author" ["A. Turing"; "B. Russell"]); [reflexivity|discriminate].
Defined.

(** ** Dispatch-table lines *)

Lemma dispatch_table_lookup k f :
  CTF_HEADER_PARSE_MAP !! k = Some f ->
  (k, f) ∈ [ (CTF_AUTHOR, co_str); (CTF_JOB_MODE, co_str);
             (CTF_X_CELLS, co_int); (CTF_Y_CELLS, co_int);
             (CTF_Z_CELLS, co_int); (CTF_X_STEP, co_parse_float);
             (CTF_Y_STEP, co_parse_float); (CTF_Z_STEP, co_parse_float);
             (CTF_ACQ_E1, co_parse_float); (CTF_ACQ_E2, co_parse_float);
             (CTF_ACQ_E3, co_parse_float); (CTF_EULER, co_str) ].
Proof. unfold CTF_HEADER_PARSE_MAP. apply elem_of_list_to_map_2. Qed.

(** A line whose first token is a key of the dispatch table begins with
    none of the five prefixes of the earlier rules. *)
Lemma dispatch_keyword_no_prefix raw keyword tl f :
  Py.split Py.TAB (Py.strip raw) = keyword :: tl ->
  CTF_HEADER_PARSE_MAP !! keyword = Some f ->
  Py.startswith (Py.strip raw) CTF_CHANNEL_TEXT_FILE = false
  /\ Py.startswith (Py.strip raw) CTF_COLON_CHANNEL_TEXT_FILE = false
  /\ Py.startswith (Py.strip raw) CTF_PRJ = false
  /\ Py.startswith (Py.strip raw) CTF_LONG_TEXT = false
  /\ Py.startswith (Py.strip raw) CTF_PHASES = false.
Proof.
  intros E Hk.
  pose proof (join_split Py.TAB (Py.strip raw)) as J. rewrite E in J.
  rewrite <- J. clear J E. apply dispatch_table_lookup in Hk.
  rewrite !elem_of_cons, elem_of_nil in Hk.
  destruct tl as [|t tl];
    repeat (destruct Hk as [[= -> ->]|Hk]; [by repeat split|]);
    destruct Hk.
Qed.

(** X5.  A line whose first token is a key of the dispatch table is always
    handled by the dispatch rule: no prefix rule takes it first.  Without
    a payload the entry carries [None]; with a payload the entry carries
    the coerced rejoined remainder, a string keyword never fails, and a
    payload that does not coerce raises [ValueError].  The entry goes to
    [entries] with an empty annotation and the unit of the keyword, or the
    empty string. *)
Theorem X5_dispatch_keyword_line units h raw rest keyword tl f :
  Py.split Py.TAB (Py.strip raw) = keyword :: tl ->
  CTF_HEADER_PARSE_MAP !! keyword = Some f ->
  let entry value :=
    mk_metadata ("SOURCE/" ++ keyword) value (Some "")
      (Some (default "" (CTF_HEADER_UNITS_MAP units !! keyword))) in
  let appended value :=
    Ok (Continue {| phases := phases h;
                    entries := entries h ++ [entry value];
                    unknown_entries := unknown_entries h |}) in
  (tl = [] -> header_line units h raw rest = appended VNone)
  /\ (tl <> [] -> forall v,
        coerce f (Py.join CTF_DELIMITER tl) = Ok v ->
        header_line units h raw rest = appended v)
  /\ (tl <> [] -> f = co_str ->
      header_line units h raw rest
      = appended (VStr (Py.join CTF_DELIMITER tl)))
  /\ (forall e, header_line units h raw rest = Raise e ->
        e = ValueError /\ tl <> [] /\ f <> co_str
        /\ coerce f (Py.join CTF_DELIMITER tl) = Raise ValueError).
Proof.
  intros E Hk entry appended.
  destruct (dispatch_keyword_no_prefix raw keyword tl f E Hk)
    as (H1 & H2 & H3 & H4 & H5).
  rewrite (keyword_line units h raw rest keyword tl E H1 H2 H3 H4 H5), Hk.
  split; [|split; [|split]].
  - intros ->. reflexivity.
  - intros Hne v Hv. rewrite decide_True by done. by rewrite Hv.
  - intros Hne ->. rewrite decide_True by done. reflexivity.
  - intros e He. destruct (decide (tl <> [])) as [Hne|Hnil];
      [|discriminate].
    destruct (coerce f (Py.join CTF_DELIMITER tl)) as [v|e'] eqn:Hc;
      [discriminate|].
    injection He as ->. destruct f; simpl in Hc; [discriminate| |].
    + apply bind_inv_Raise in Hc as [Hc|(n & _ & Hc)]; [|discriminate].
      apply int_Raise in Hc as ->. by repeat split.
    + apply bind_inv_Raise in Hc as [Hc|(x & _ & Hc)]; [|discriminate].
      apply float_Raise in Hc as ->. by repeat split.
Qed.

Lemma X5_dispatch_keyword_line_witness :
  header_line "microns" CtfHeader_init (tabbed ["ZStep"]) []
  = Ok (Continue (with_entries CtfHeader_init
          [mk_metadata "SOURCE/ZStep" VNone (Some "") (Some "microns")]))
  /\ header_line "microns" CtfHeader_init
       (tabbed ["Euler"; "angles refer to"; "CS0"]) []
     = Ok (Continue (with_entries CtfHeader_init
             [mk_metadata "SOURCE/Euler"
                (VStr (tabbed ["angles refer to"; "CS0"])) (Some "")
                (Some "")])).
Proof.
  split.
  - destruct (X5_dispatch_keyword_line "microns" CtfHeader_init
                (tabbed ["ZStep"]) [] "ZStep" [] co_parse_float
                eq_refl eq_refl) as (H & _).
    exact (H eq_refl).
  - destruct (X5_dispatch_keyword_line "microns" CtfHeader_init
                (tabbed ["Euler"; "angles refer to"; "CS0"]) [] "Euler"
                ["angles refer to"; "CS0"] co_str eq_refl eq_refl)
      as (_ & _ & H & _).
    apply H; [discriminate|reflexivity].
Defined.

(** ** Blank lines *)

Lemma lstrip_all_space s :
  forallb Py.isspace (list_ascii_of_string s) = true ->
  Py.lstrip_with Py.isspace s = "".
Proof.
  induction s as [|c s IH]; simpl; [done|].
  intros [Hc Hs]%andb_true_iff. rewrite Hc. auto.
Qed.

(** X4.  A line made of whitespace only (an empty line too) is not
    skipped and is no error: its keyword is the empty string, and it adds
    to [unknown_entries] the entry with key "SOURCE/" and the empty string
    as value. *)
Theorem X4_blank_line_is_unknown units h raw rest :
  forallb Py.isspace (list_ascii_of_string raw) = true ->
  header_line units h raw rest
  = Ok (Continue {| phases := phases h;
                    entries := entries h;
                    unknown_entries :=
                      unknown_entries h
                      ++ [mk_metadata "SOURCE/" (VStr "") None None] |}).
Proof.
  intros H. unfold header_line, Py.strip.
  rewrite (lstrip_all_space raw H). reflexivity.
Qed.

Lemma X4_blank_line_is_unknown_witness :
  header_line "microns" CtfHeader_init ("  " ++ CTF_DELIMITER) []
  = Ok (Continue (with_unknown CtfHeader_init
          (mk_metadata "SOURCE/" (VStr "") None None))).
Proof.
  apply (X4_blank_line_is_unknown "microns" CtfHeader_init
           ("  " ++ CTF_DELIMITER) []).
  reflexivity.
Defined.

(** ** Exceptions of the phase table *)

Ltac raise_kinds H :=
  repeat (apply bind_inv_Raise in H as [H|(? & _ & H)];
          [first [ apply index_Raise in H | apply int_Raise in H
                 | apply float_Raise in H
                 | apply int_of_float_Raise in H as [H|H] ];
           subst; auto|]).

Lemma parse_float_triplet_Raise text e :
  parse_float_triplet text = Raise e -> e = IndexError \/ e = ValueError.
Proof. unfold parse_float_triplet. intros H. raise_kinds H. discriminate. Qed.

Lemma phase_optionals_Raise tokens e :
  phase_optionals tokens = Raise e -> e = ValueError.
Proof.
  unfold phase_optionals. intros H.
  destruct (decide (length tokens = 5%nat)) as [H5|_].
  - destruct tokens as [|a [|b [|c [|d [|x [|y tokens]]]]]]; done.
  - destruct (decide (length tokens = 8%nat)) as [H8|_]; [|done].
    destruct tokens
      as [|a [|b [|c [|d [|x [|y [|z [|w [|v tokens]]]]]]]]]; try done.
    cbn [Py.index lookup list_lookup] in H. rewrite !bind_Ok in H.
    apply bind_inv_Raise in H as [H|(n & _ & H)]; [|done].
    by apply int_Raise in H.
Qed.

Lemma parse_phase_row_Raise i raw e :
  parse_phase_row i raw = Raise e -> e = IndexError \/ e = ValueError.
Proof.
  unfold parse_phase_row. intros H.
  repeat (apply bind_inv_Raise in H as [H|(? & _ & H)];
          [first [ apply index_Raise in H
                 | apply int_Raise in H
                 | apply LaueGroup_call_Raise in H
                 | apply phase_optionals_Raise in H
                 | apply parse_float_triplet_Raise in H as [H|H] ];
           subst; auto|]).
  repeat case_match. discriminate.
Qed.

Lemma parse_phases_from_Raise n : forall i file acc e,
  parse_phases_from n i file acc = Raise e ->
  e = IndexError \/ e = ValueError \/ e = StopIteration.
Proof.
  induction n as [|n IH]; intros i file acc e H; simpl in H; [done|].
  destruct file as [|raw file]; simpl in H.
  - injection H as <-. auto.
  - destruct (parse_phase_row i raw) as [p|e'] eqn:Hrow; simpl in H.
    + by apply IH in H.
    + injection H as <-. apply parse_phase_row_Raise in Hrow. tauto.
Qed.

(** The loop looks at its first [n] lines only and hands the others back
    untouched. *)
Lemma parse_phases_from_take n : forall i file acc,
  parse_phases_from n i file acc
  = match parse_phases_from n i (take n file) acc with
    | Ok (ps, _) => Ok (ps, drop n file)
    | Raise e => Raise e
    end.
Proof.
  induction n as [|n IH]; intros i file acc; [reflexivity|].
  destruct file as [|raw file]; [reflexivity|].
  cbn [take drop parse_phases_from Py.next]. rewrite !bind_Ok.
  destruct (parse_phase_row i raw) as [p|e]; [|reflexivity].
  rewrite !bind_Ok. apply IH.
Qed.

Lemma parse_phases_from_short n : forall i file acc,
  (length file < n)%nat ->
  (forall k raw, file !! k = Some raw ->
     returns (parse_phase_row (i + Z.of_nat k) raw)) ->
  parse_phases_from n i file acc = Raise StopIteration.
Proof.
  induction n as [|n IH]; intros i file acc Hlen Hrows; [lia|].
  destruct file as [|raw file]; [reflexivity|].
  cbn [parse_phases_from Py.next]. rewrite bind_Ok.
  destruct (Hrows 0%nat raw eq_refl) as [p Hp].
  rewrite Z.add_0_r in Hp. rewrite Hp, bind_Ok.
  apply IH; [simpl in Hlen; lia|].
  intros k r Hk. specialize (Hrows (S k) r Hk).
  by replace (i + 1 + Z.of_nat k) with (i + Z.of_nat (S k)) by lia.
Qed.

Lemma parse_phases_from_StopIteration n : forall i file acc,
  parse_phases_from n i file acc = Raise StopIteration ->
  (length file < n)%nat.
Proof.
  induction n as [|n IH]; intros i file acc H; simpl in H; [done|].
  destruct file as [|raw file]; simpl in H |- *; [lia|].
  destruct (parse_phase_row i raw) as [p|e] eqn:Hrow; simpl in H.
  - apply IH in H. lia.
  - injection H as ->. apply parse_phase_row_Raise in Hrow.
    destruct Hrow; discriminate.
Qed.

(** X7.  [parse_phases] reads exactly the first N lines of the cursor:
    when it returns, there were at least N lines, the cursor it leaves is
    the file without its first N lines, and the phases do not depend on
    what follows those N lines. *)
Theorem X7_parse_phases_reads_N_lines file N ps rest :
  parse_phases file N = Ok (ps, rest) ->
  (Z.to_nat N <= length file)%nat
  /\ rest = drop (Z.to_nat N) file
  /\ forall tail,
       parse_phases (take (Z.to_nat N) file ++ tail) N = Ok (ps, tail).
Proof.
  unfold parse_phases. intros H.
  pose proof (parse_phases_from_inv _ _ _ _ _ _ H)
    as (new & _ & _ & _ & Htake & _).
  rewrite parse_phases_from_take in H.
  destruct (parse_phases_from _ 0 (take _ file) []) as [[ps' r']|]
    eqn:E; [|discriminate].
  injection H as -> ->.
  split; [rewrite length_take in Htake; lia|]. split; [done|].
  intros tail. rewrite parse_phases_from_take.
  rewrite take_app_length' by done. rewrite E.
  by rewrite drop_app_length' by done.
Qed.

Lemma X7_parse_phases_reads_N_lines_witness :
  exists ps,
    parse_phases [nickel_row; iron_row; "12 34 56"; ""] 2
    = Ok (ps, ["12 34 56"; ""])
    /\ parse_phases [nickel_row; iron_row; "any"; "other"; "tail"] 2
       = Ok (ps, ["any"; "other"; "tail"]).
Proof.
  destruct (parse_phases [nickel_row; iron_row; "12 34 56"; ""] 2)
    as [[ps rest]|] eqn:E; [|discriminate].
  destruct (X7_parse_phases_reads_N_lines _ _ _ _ E) as (_ & -> & H).
  exists ps. split; [reflexivity|]. exact (H ["any"; "other"; "tail"]).
Defined.

(** X8.  End of input inside the phase table: when the cursor holds fewer
    than N lines and each of them parses as a row, [parse_phases] raises
    [StopIteration]; and it raises [StopIteration] in no other case than a
    cursor of fewer than N lines. *)
Theorem X8_short_table_stops_iteration file N :
  ((length file < Z.to_nat N)%nat ->
   (forall k raw, file !! k = Some raw ->
      returns (parse_phase_row (Z.of_nat k) raw)) ->
   parse_phases file N = Raise StopIteration)
  /\ (parse_phases file N = Raise StopIteration ->
      (length file < Z.to_nat N)%nat).
Proof.
  unfold parse_phases. split.
  - intros Hlen Hrows. apply parse_phases_from_short; [done|].
    intros k raw Hk. rewrite Z.add_0_l. by apply Hrows.
  - apply parse_phases_from_StopIteration.
Qed.

Lemma X8_short_table_stops_iteration_witness :
  parse_phases [nickel_row] 2 = Raise StopIteration.
Proof.
  apply (X8_short_table_stops_iteration [nickel_row] 2); [simpl; lia|].
  intros [|k] raw Hk; [|discriminate].
  injection Hk as <-. by eexists.
Defined.

(** X18.  A phase row with fewer than four tab-separated fields never
    parses: it raises [IndexError] at the first missing field, or
    [ValueError] when a field before it does not parse.  No row raises any
    other exception. *)
Theorem X18_short_row_raises i raw :
  ((length (Py.split Py.TAB (Py.strip raw)) < 4)%nat ->
   exists e, parse_phase_row i raw = Raise e
             /\ (e = IndexError \/ e = ValueError))
  /\ (forall e, parse_phase_row i raw = Raise e ->
        e = IndexError \/ e = ValueError).
Proof.
  split; [|intros e; apply parse_phase_row_Raise].
  intros Hlen. destruct (parse_phase_row i raw) as [p|e] eqn:E.
  - apply parse_phase_row_inv in E
      as (t0 & t1 & t2 & t3 & code & opt & _ & _ & _ & H3 & _).
    apply lookup_lt_Some in H3. lia.
  - exists e. split; [done|]. by apply parse_phase_row_Raise in E.
Qed.

Lemma X18_short_row_raises_witness :
  exists e,
    parse_phase_row 0 (tabbed ["3.52;3.52;3.52"; "90;90;90"; "Nickel"])
    = Raise e
    /\ (e = IndexError \/ e = ValueError).
Proof.
  apply (X18_short_row_raises 0
           (tabbed ["3.52;3.52;3.52"; "90;90;90"; "Nickel"])).
  vm_compute. lia.
Defined.

(** ** The header loop *)

Lemma parse_ctf_long_text_keys tokens es :
  parse_ctf_long_text tokens = Ok es ->
  Forall (fun e => Py.startswith (source_path e) "SOURCE/" = true) es.
Proof.
  unfold parse_ctf_long_text. intros H. invert_binds.
  injection H as <-. by repeat constructor.
Qed.

(** What a turn of the loop can do to the header. *)
Lemma header_line_outcomes U h raw rest fl :
  header_line U h raw rest = Ok fl ->
  fl = Continue h
  \/ (exists es,
        fl = Continue (with_entries h es)
        /\ Forall (fun e => Py.startswith (source_path e) "SOURCE/" = true)
             es)
  \/ (exists e,
        fl = Continue (with_unknown h e)
        /\ Py.startswith (source_path e) "SOURCE/" = true
        /\ (exists s, md_value e = VStr s)
        /\ annotation e = None /\ units e = None)
  \/ (exists ps,
        fl = Break (with_phases h ps)
        /\ Py.startswith (Py.strip raw) CTF_PHASES = true).
Proof.
  intros H.
  destruct (Py.startswith (Py.strip raw) CTF_CHANNEL_TEXT_FILE) eqn:H1.
  { rewrite signature_line in H by auto. injection H as <-. by left. }
  destruct (Py.startswith (Py.strip raw) CTF_COLON_CHANNEL_TEXT_FILE) eqn:H2.
  { rewrite signature_line in H by auto. injection H as <-. by left. }
  destruct (Py.startswith (Py.strip raw) CTF_PRJ) eqn:H3.
  { rewrite project_line in H by auto. injection H as <-.
    right; left. eexists. split; [reflexivity|]. by repeat constructor. }
  destruct (Py.startswith (Py.strip raw) CTF_LONG_TEXT) eqn:H4.
  { rewrite long_text_line_rule in H by auto.
    apply bind_inv_Ok in H as (es & Hes & H). injection H as <-.
    right; left. exists es. split; [done|].
    by apply parse_ctf_long_text_keys in Hes. }
  destruct (Py.startswith (Py.strip raw) CTF_PHASES) eqn:H5.
  { rewrite marker_line in H by auto.
    apply bind_inv_Ok in H as (h0 & Hm & H). injection H as <-.
    apply marker_outcome_inv in Hm as (t1 & N & ps & rest' & _ & _ & _ & ->).
    do 3 right. by exists ps. }
  destruct (split_cons Py.TAB (Py.strip raw)) as (keyword & tl & E).
  rewrite (keyword_line _ _ _ _ _ _ E H1 H2 H3 H4 H5) in H.
  destruct (CTF_HEADER_PARSE_MAP !! keyword).
  - apply bind_inv_Ok in H as (v & _ & H). injection H as <-.
    right; left. eexists. split; [reflexivity|]. by repeat constructor.
  - injection H as <-. right; right; left. eexists.
    split; [reflexivity|]. simpl. eauto.
Qed.

(** A line that is no marker does not look at the rest of the file and
    does not end the loop. *)
Lemma header_line_rest_irrelevant U h raw rest rest' :
  Py.startswith (Py.strip raw) CTF_PHASES = false ->
  header_line U h raw rest = header_line U h raw rest'.
Proof. intros H. unfold header_line. by rewrite H. Qed.

Lemma header_line_no_break U h raw rest h' :
  Py.startswith (Py.strip raw) CTF_PHASES = false ->
  header_line U h raw rest <> Ok (Break h').
Proof.
  intros H Hl. apply header_line_outcomes in Hl
    as [Hl|[(es & Hl & _)|[(e & Hl & _)|(ps & _ & Hm)]]];
    congruence.
Qed.

Lemma header_loop_app U pre : forall h l2,
  Forall (fun raw => Py.startswith (Py.strip raw) CTF_PHASES = false) pre ->
  header_loop U h (pre ++ l2)%list
  = (header_loop U h pre ≫= fun h' => header_loop U h' l2).
Proof.
  induction pre as [|raw pre IH]; intros h l2 Hpre; [reflexivity|].
  apply Forall_cons in Hpre as [Hraw Hpre].
  cbn [app header_loop].
  rewrite (header_line_rest_irrelevant U h raw (pre ++ l2)%list pre Hraw).
  destruct (header_line U h raw pre) as [[h0|h0]|e] eqn:Hl.
  - by apply IH.
  - by apply header_line_no_break in Hl.
  - reflexivity.
Qed.

Lemma index_short_1 {A} (l : list A) (i : nat) :
  (length l <= i)%nat -> Py.index l i = Raise IndexError.
Proof. intros H. unfold Py.index. by rewrite lookup_ge_None_2. Qed.

(** X9.  The header pass composes: over lines none of which begins with
    "Phases", running the loop on the lines followed by more lines is
    running it on the lines and then, from the header reached, on the
    others; an exception in the first part is the exception of the
    whole. *)
Theorem X9_header_loop_composes U h pre l2 :
  Forall (fun raw => Py.startswith (Py.strip raw) CTF_PHASES = false) pre ->
  header_loop U h (pre ++ l2)%list
  = match header_loop U h pre with
    | Ok h' => header_loop U h' l2
    | Raise e => Raise e
    end.
Proof. intros H. by rewrite header_loop_app. Qed.

Lemma X9_header_loop_composes_witness :
  header_loop "microns" CtfHeader_init small_file
  = header_loop "microns"
      (with_entries
         (with_unknown CtfHeader_init
            (mk_metadata "SOURCE/Mumble" (VStr (tabbed ["foo"; "bar"]))
               None None))
         [mk_metadata "SOURCE/XCells" (VInt 10) (Some "") (Some "")])
      two_phase_file.
Proof.
  unfold small_file.
  rewrite (X9_header_loop_composes "microns" CtfHeader_init
             [ "Channel Text File"; tabbed ["Mumble"; "foo"; "bar"];
               tabbed ["XCells"; "10"] ] two_phase_file).
  - reflexivity.
  - repeat constructor.
Defined.

Lemma marker_outcome_take h tokens t1 N rows tail :
  tokens !! 1%nat = Some t1 -> Py.int t1 = Ok N ->
  length rows = Z.to_nat N ->
  marker_outcome h tokens (rows ++ tail)%list = marker_outcome h tokens rows.
Proof.
  intros H1 HN Hlen. unfold marker_outcome, parse_phases.
  rewrite (index_Some _ _ _ H1), !bind_Ok, HN, !bind_Ok.
  rewrite (parse_phases_from_take _ _ (rows ++ tail)%list).
  rewrite (parse_phases_from_take _ _ rows).
  rewrite <- Hlen, take_app_length, firstn_all.
  by destruct (parse_phases_from (length rows) 0 rows []) as [[ps r]|].
Qed.

(** X10.  Nothing after the phase table is read.  For a file whose lines
    before the marker do not begin with "Phases" and whose marker
    announces N rows, whatever follows the N rows changes neither the
    header nor the sequence that [parse_header] returns, nor the
    exception raised. *)
Theorem X10_lines_after_table_ignored U D A M pre marker t1 N rows tail :
  Forall (fun raw => Py.startswith (Py.strip raw) CTF_PHASES = false) pre ->
  Py.startswith (Py.strip marker) CTF_PHASES = true ->
  Py.split Py.TAB (Py.strip marker) !! 1%nat = Some t1 ->
  Py.int t1 = Ok N ->
  length rows = Z.to_nat N ->
  _parse_header U (pre ++ marker :: rows ++ tail)%list
  = _parse_header U (pre ++ marker :: rows)%list
  /\ parse_header U D A M (pre ++ marker :: rows ++ tail)%list
     = parse_header U D A M (pre ++ marker :: rows)%list.
Proof.
  intros Hpre Hm H1 HN Hlen.
  assert (_parse_header U (pre ++ marker :: rows ++ tail)%list
          = _parse_header U (pre ++ marker :: rows)%list) as E.
  { unfold _parse_header. rewrite !header_loop_app by done.
    destruct (header_loop U CtfHeader_init pre) as [h|e]; [|reflexivity].
    rewrite !bind_Ok, !(marker_ends_loop U _ _ _ Hm).
    by apply (marker_outcome_take _ _ t1 N). }
  split; [done|]. unfold parse_header. by rewrite E.
Qed.

Lemma X10_lines_after_table_ignored_witness :
  parse_header "microns" "degrees" "angstrom" ∅
    (small_file ++ ["1 2 0.5"; "Phases"; ""])%list
  = parse_header "microns" "degrees" "angstrom" ∅ small_file.
Proof.
  apply (X10_lines_after_table_ignored "microns" "degrees" "angstrom" ∅
           [ "Channel Text File"; tabbed ["Mumble"; "foo"; "bar"];
             tabbed ["XCells"; "10"] ]
           (tabbed ["Phases"; "2"]) "2" 2 [nickel_row; iron_row]
           ["1 2 0.5"; "Phases"; ""]);
    [repeat constructor|reflexivity..].
Defined.

Lemma header_loop_no_marker U file : forall h h',
  Forall (fun raw => Py.startswith (Py.strip raw) CTF_PHASES = false) file ->
  header_loop U h file = Ok h' -> phases h' = phases h.
Proof.
  induction file as [|raw rest IH]; intros h h' Hf H; simpl in H.
  - by injection H as <-.
  - apply Forall_cons in Hf as [Hraw Hf].
    destruct (header_line U h raw rest) as [[h0|h0]|e] eqn:Hl;
      [| |discriminate].
    + apply header_line_Continue_phases in Hl. rewrite <- Hl. by apply IH.
    + by apply header_line_no_break in Hl.
Qed.

(** X11.  A file with no line beginning with "Phases" is no error for
    that reason: the header keeps the empty dict as its [phases], and
    [parse_header] returns the header entries alone, or raises what the
    header pass raises. *)
Theorem X11_file_without_marker U D A M lines :
  Forall (fun raw => Py.startswith (Py.strip raw) CTF_PHASES = false)
    lines ->
  (forall h, _parse_header U lines = Ok h -> phases h = PhDict ∅)
  /\ parse_header U D A M lines
     = match _parse_header U lines with
       | Ok h => Ok (entries h)
       | Raise e => Raise e
       end.
Proof.
  intros Hl.
  assert (forall h, _parse_header U lines = Ok h -> phases h = PhDict ∅)
    as Hp.
  { intros h Hh. by apply (header_loop_no_marker U lines _ _ Hl) in Hh. }
  split; [done|]. unfold parse_header.
  destruct (_parse_header U lines) as [h|e] eqn:E; [|reflexivity].
  rewrite bind_Ok, (Hp h eq_refl). reflexivity.
Qed.

Lemma X11_file_without_marker_witness :
  parse_header "microns" "degrees" "angstrom" ∅
    [ "Channel Text File"; tabbed ["XCells"; "10"]; tabbed ["Mumble"] ]
  = Ok [mk_metadata "SOURCE/XCells" (VInt 10) (Some "") (Some "")].
Proof.
  destruct (X11_file_without_marker "microns" "degrees" "angstrom" ∅
              [ "Channel Text File"; tabbed ["XCells"; "10"];
                tabbed ["Mumble"] ]) as [_ ->];
    [repeat constructor|reflexivity].
Defined.

(** X12.  Edge cases of the marker line.  A count that is zero or
    negative stores the empty list of phases without reading any line and
    ends the loop; a marker with no second token raises [IndexError]; a
    second token that is no integer raises [ValueError]. *)
Theorem X12_marker_edge_cases U h raw rest :
  Py.startswith (Py.strip raw) CTF_PHASES = true ->
  (forall t1 N,
     Py.split Py.TAB (Py.strip raw) !! 1%nat = Some t1 ->
     Py.int t1 = Ok N -> N <= 0 ->
     header_loop U h (raw :: rest)
     = Ok {| phases := PhList []; entries := entries h;
             unknown_entries := unknown_entries h |})
  /\ (length (Py.split Py.TAB (Py.strip raw)) = 1%nat ->
      header_loop U h (raw :: rest) = Raise IndexError)
  /\ (forall t1 e,
        Py.split Py.TAB (Py.strip raw) !! 1%nat = Some t1 ->
        Py.int t1 = Raise e ->
        header_loop U h (raw :: rest) = Raise ValueError).
Proof.
  intros Hm. rewrite (marker_ends_loop U _ _ _ Hm). unfold marker_outcome.
  split; [|split].
  - intros t1 N H1 HN Hle.
    rewrite (index_Some _ _ _ H1), bind_Ok, HN, bind_Ok.
    unfold parse_phases. by replace (Z.to_nat N) with 0%nat by lia.
  - intros Hlen. rewrite index_short_1; [reflexivity|lia].
  - intros t1 e H1 He.
    rewrite (index_Some _ _ _ H1), bind_Ok, He.
    by apply int_Raise in He as ->.
Qed.

Lemma X12_marker_edge_cases_witness :
  header_loop "microns" CtfHeader_init [tabbed ["Phases"; "-3"]; nickel_row]
  = Ok (with_phases CtfHeader_init [])
  /\ header_loop "microns" CtfHeader_init ["Phases"; nickel_row]
     = Raise IndexError
  /\ header_loop "microns" CtfHeader_init
       [tabbed ["Phases"; "2.0"]; nickel_row]
     = Raise ValueError.
Proof.
  split; [|split].
  - destruct (X12_marker_edge_cases "microns" CtfHeader_init
                (tabbed ["Phases"; "-3"]) [nickel_row] eq_refl)
      as (H & _).
    apply (H "-3" (-3)); [reflexivity..|lia].
  - destruct (X12_marker_edge_cases "microns" CtfHeader_init
                "Phases" [nickel_row] eq_refl) as (_ & H & _).
    by apply H.
  - destruct (X12_marker_edge_cases "microns" CtfHeader_init
                (tabbed ["Phases"; "2.0"]) [nickel_row] eq_refl)
      as (_ & _ & H).
    apply (H "2.0" ValueError); reflexivity.
Defined.

(** ** Exceptions of the whole parse *)

Lemma header_line_Raise U h raw rest e :
  header_line U h raw rest = Raise e ->
  e = ValueError \/ e = IndexError \/ e = OverflowError
  \/ e = StopIteration.
Proof.
  intros H.
  destruct (Py.startswith (Py.strip raw) CTF_CHANNEL_TEXT_FILE) eqn:H1.
  { rewrite signature_line in H by auto. discriminate. }
  destruct (Py.startswith (Py.strip raw) CTF_COLON_CHANNEL_TEXT_FILE) eqn:H2.
  { rewrite signature_line in H by auto. discriminate. }
  destruct (Py.startswith (Py.strip raw) CTF_PRJ) eqn:H3.
  { rewrite project_line in H by auto. discriminate. }
  destruct (Py.startswith (Py.strip raw) CTF_LONG_TEXT) eqn:H4.
  { rewrite long_text_line_rule in H by auto.
    apply bind_inv_Raise in H as [H|(es & _ & H)]; [|discriminate].
    apply parse_ctf_long_text_Raise in H. tauto. }
  destruct (Py.startswith (Py.strip raw) CTF_PHASES) eqn:H5.
  { rewrite marker_line in H by auto.
    apply bind_inv_Raise in H as [H|(h0 & _ & H)]; [|discriminate].
    unfold marker_outcome in H.
    apply bind_inv_Raise in H as [H|(t1 & _ & H)];
      [apply index_Raise in H; tauto|].
    apply bind_inv_Raise in H as [H|(N & _ & H)];
      [apply int_Raise in H; tauto|].
    apply bind_inv_Raise in H as [H|([ps r] & _ & H)]; [|discriminate].
    apply parse_phases_from_Raise in H. tauto. }
  destruct (split_cons Py.TAB (Py.strip raw)) as (keyword & tl & E).
  rewrite (keyword_line _ _ _ _ _ _ E H1 H2 H3 H4 H5) in H.
  destruct (CTF_HEADER_PARSE_MAP !! keyword) as [f|]; [|discriminate].
  apply bind_inv_Raise in H as [H|(v & _ & H)]; [|discriminate].
  destruct (decide (tl <> [])) as [Hne|Hnil]; [|discriminate].
  destruct f; simpl in H; [discriminate| |].
  - apply bind_inv_Raise in H as [H|(z & _ & H)]; [|discriminate].
    apply int_Raise in H. tauto.
  - apply bind_inv_Raise in H as [H|(x & _ & H)]; [|discriminate].
    apply float_Raise in H. tauto.
Qed.

Lemma header_loop_Raise U file : forall h e,
  header_loop U h file = Raise e ->
  e = ValueError \/ e = IndexError \/ e = OverflowError
  \/ e = StopIteration.
Proof.
  induction file as [|raw rest IH]; intros h e H; simpl in H; [done|].
  destruct (header_line U h raw rest) as [[h0|h0]|e'] eqn:Hl.
  - by apply IH in H.
  - discriminate.
  - injection H as <-. by apply header_line_Raise in Hl.
Qed.

(** X13.  The exceptions of a parse are those of malformed text and of
    a table cut short: [parse_header] and [_parse_header] raise
    [ValueError], [IndexError], [OverflowError] or [StopIteration] and
    nothing else; in particular the loop over the phases never meets the
    keys of a non-empty dict. *)
Theorem X13_parse_header_exceptions U D A M lines e :
  (_parse_header U lines = Raise e ->
   e = ValueError \/ e = IndexError \/ e = OverflowError
   \/ e = StopIteration)
  /\ (parse_header U D A M lines = Raise e ->
      _parse_header U lines = Raise e
      /\ (e = ValueError \/ e = IndexError \/ e = OverflowError
          \/ e = StopIteration)).
Proof.
  split; [exact (header_loop_Raise U lines CtfHeader_init e)|].
  unfold parse_header. intros H.
  destruct (_parse_header U lines) as [h|e'] eqn:E.
  2:{ injection H as ->. split; [done|].
      exact (header_loop_Raise U lines CtfHeader_init e E). }
  rewrite bind_Ok in H. unfold _parse_header in E.
  apply header_loop_phases in E as [E|(ps & E & _)]; rewrite E in H;
    discriminate.
Qed.

Lemma X13_parse_header_exceptions_witness :
  parse_header "microns" "degrees" "angstrom" ∅
    [tabbed ["Phases"; "2"]; nickel_row]
  = Raise StopIteration
  /\ _parse_header "microns" [tabbed ["Phases"; "2"]; nickel_row]
     = Raise StopIteration.
Proof.
  assert (parse_header "microns" "degrees" "angstrom" ∅
            [tabbed ["Phases"; "2"]; nickel_row]
          = Raise StopIteration) as H by reflexivity.
  split; [exact H|].
  destruct (X13_parse_header_exceptions "microns" "degrees" "angstrom" ∅
              [tabbed ["Phases"; "2"]; nickel_row] StopIteration)
    as [_ Hp].
  destruct (Hp H) as [Hh _]. exact Hh.
Defined.

(** ** Invariants of the header *)

Lemma header_loop_grows U file : forall h h',
  header_loop U h file = Ok h' ->
  entries h `prefix_of` entries h'
  /\ unknown_entries h `prefix_of` unknown_entries h'.
Proof.
  induction file as [|raw rest IH]; intros h h' H; simpl in H.
  - by injection H as <-.
  - destruct (header_line U h raw rest) as [[h0|h0]|e] eqn:Hl;
      [| |discriminate].
    + apply IH in H as [He Hu].
      apply header_line_outcomes in Hl
        as [Hl|[(es & Hl & _)|[(x & Hl & _)|(ps & Hl & _)]]];
        simplify_eq; simpl in *; split; try done.
      * etrans; [|done]. by apply prefix_app_r.
      * etrans; [|done]. by apply prefix_app_r.
    + injection H as <-.
      apply header_line_outcomes in Hl
        as [Hl|[(es & Hl & _)|[(x & Hl & _)|(ps & Hl & _)]]];
        by simplify_eq.
Qed.

(** X14.  The header pass only appends: the entries and the unknown
    entries a header held before the pass are, in the same order, the
    first ones of the header it returns. *)
Theorem X14_header_pass_only_appends U h file h' :
  header_loop U h file = Ok h' ->
  (exists es, entries h' = (entries h ++ es)%list)
  /\ (exists us, unknown_entries h' = (unknown_entries h ++ us)%list).
Proof. intros H. by apply header_loop_grows in H as [[es ?] [us ?]]; eauto. Qed.

Lemma X14_header_pass_only_appends_witness :
  exists h' es,
    header_loop "microns"
      (with_entries CtfHeader_init
         [mk_metadata "SOURCE/Prj" (VStr "p.cpr") None None])
      small_file = Ok h'
    /\ entries h'
       = (mk_metadata "SOURCE/Prj" (VStr "p.cpr") None None :: es).
Proof.
  destruct (header_loop "microns"
              (with_entries CtfHeader_init
                 [mk_metadata "SOURCE/Prj" (VStr "p.cpr") None None])
              small_file) as [h'|] eqn:E; [|discriminate].
  destruct (X14_header_pass_only_appends _ _ _ _ E) as [[es Hes] _].
  exists h', es. split; [reflexivity|]. exact Hes.
Defined.

Lemma header_loop_keys U file : forall h h',
  Forall (fun e => Py.startswith (source_path e) "SOURCE/" = true)
    (entries h) ->
  Forall (fun e => Py.startswith (source_path e) "SOURCE/" = true)
    (unknown_entries h) ->
  header_loop U h file = Ok h' ->
  Forall (fun e => Py.startswith (source_path e) "SOURCE/" = true)
    (entries h')
  /\ Forall (fun e => Py.startswith (source_path e) "SOURCE/" = true)
       (unknown_entries h').
Proof.
  induction file as [|raw rest IH]; intros h h' He Hu H; simpl in H.
  - by injection H as <-.
  - destruct (header_line U h raw rest) as [[h0|h0]|e] eqn:Hl;
      [| |discriminate].
    + apply header_line_outcomes in Hl
        as [Hl|[(es & Hl & Hes)|[(x & Hl & Hx & _)|(ps & Hl & _)]]];
        simplify_eq; apply IH in H; try done; simpl.
      * by apply Forall_app.
      * apply Forall_app. split; [done|]. by constructor.
    + injection H as <-.
      apply header_line_outcomes in Hl
        as [Hl|[(es & Hl & _)|[(x & Hl & _)|(ps & Hl & _)]]];
        by simplify_eq.
Qed.

Lemma header_loop_unknown_shape U file : forall h h',
  Forall (fun e => (exists s, md_value e = VStr s)
                   /\ annotation e = None /\ units e = None)
    (unknown_entries h) ->
  header_loop U h file = Ok h' ->
  Forall (fun e => (exists s, md_value e = VStr s)
                   /\ annotation e = None /\ units e = None)
    (unknown_entries h').
Proof.
  induction file as [|raw rest IH]; intros h h' Hu H; simpl in H.
  - by injection H as <-.
  - destruct (header_line U h raw rest) as [[h0|h0]|e] eqn:Hl;
      [| |discriminate].
    + apply header_line_outcomes in Hl
        as [Hl|[(es & Hl & _)|[(x & Hl & _ & Hx)|(ps & Hl & _)]]];
        simplify_eq; apply IH in H; try done; simpl.
      apply Forall_app. split; [done|]. by constructor.
    + injection H as <-.
      apply header_line_outcomes in Hl
        as [Hl|[(es & Hl & _)|[(x & Hl & _)|(ps & Hl & _)]]];
        by simplify_eq.
Qed.

Lemma emit_phases_keys D A M ps : forall es,
  Forall (fun e => Py.startswith (source_path e) "SOURCE/" = true) es ->
  Forall (fun e => Py.startswith (source_path e) "SOURCE/" = true)
    (emit_phases D A M es ps).
Proof.
  induction ps as [|p ps IH]; intros es Hes; [done|].
  cbn [emit_phases]. apply IH, Forall_app. split; [done|].
  by repeat constructor.
Qed.

(** X15.  Every key produced is under "SOURCE/": the keys of the entries
    and of the unknown entries of the header that [_parse_header] returns,
    and the keys of the sequence that [parse_header] returns, all begin
    with "SOURCE/". *)
Theorem X15_keys_under_SOURCE U D A M lines :
  (forall h, _parse_header U lines = Ok h ->
     Forall (fun e => Py.startswith (source_path e) "SOURCE/" = true)
       (entries h ++ unknown_entries h)%list)
  /\ (forall out, parse_header U D A M lines = Ok out ->
        Forall (fun e => Py.startswith (source_path e) "SOURCE/" = true)
          out).
Proof.
  assert (forall h, _parse_header U lines = Ok h ->
            Forall (fun e =>
                      Py.startswith (source_path e) "SOURCE/" = true)
              (entries h)
            /\ Forall (fun e =>
                         Py.startswith (source_path e) "SOURCE/" = true)
                 (unknown_entries h)) as Hh.
  { intros h Hh. by apply (header_loop_keys U lines CtfHeader_init h). }
  split.
  - intros h E. apply Forall_app. by apply Hh.
  - intros out Hout. unfold parse_header in Hout.
    apply bind_inv_Ok in Hout as (h & E & Hout).
    destruct (Hh h E) as [He _].
    destruct (phases h) as [m|ps].
    + destruct (decide (m = ∅)); [|discriminate]. by injection Hout as <-.
    + injection Hout as <-. by apply emit_phases_keys.
Qed.

Lemma X15_keys_under_SOURCE_witness :
  exists out,
    parse_header "microns" "degrees" "angstrom" ∅ small_file = Ok out
    /\ length out = 17%nat
    /\ Forall (fun e => Py.startswith (source_path e) "SOURCE/" = true) out.
Proof.
  destruct (parse_header "microns" "degrees" "angstrom" ∅ small_file)
    as [out|] eqn:E; [|discriminate].
  exists out. split; [reflexivity|]. split.
  - vm_compute in E. by injection E as <-.
  - destruct (X15_keys_under_SOURCE "microns" "degrees" "angstrom" ∅
                small_file) as [_ H].
    exact (H out E).
Defined.

(** X16.  Unknown lines are never coerced and never annotated: every
    entry of [unknown_entries] in the header that [_parse_header] returns
    has a string as value and was built without annotation and without
    unit. *)
Theorem X16_unknown_entries_are_raw_strings U lines h :
  _parse_header U lines = Ok h ->
  Forall (fun e => (exists s, md_value e = VStr s)
                   /\ annotation e = None /\ units e = None)
    (unknown_entries h).
Proof.
  intros H. by apply (header_loop_unknown_shape U lines CtfHeader_init h).
Qed.

Lemma X16_unknown_entries_are_raw_strings_witness :
  exists h,
    _parse_header "microns" small_file = Ok h
    /\ Forall (fun e => (exists s, md_value e = VStr s)
                        /\ annotation e = None /\ units e = None)
         (unknown_entries h).
Proof.
  destruct (_parse_header "microns" small_file) as [h|] eqn:E;
    [|discriminate].
  exists h. split; [reflexivity|].
  exact (X16_unknown_entries_are_raw_strings "microns" small_file h E).
Defined.

(** ** The long-text line reads six tokens only *)

(** X17.  [parse_ctf_long_text] looks at the tokens at offsets 2, 4, 6, 8,
    10 and 12 and at nothing else: two token lists that agree there give
    the same entries or the same exception, whatever their labels at the
    other offsets and whatever follows offset 12. *)
Theorem X17_long_text_reads_six_offsets tokens tokens' :
  (forall k, k ∈ [2; 4; 6; 8; 10; 12]%nat -> tokens !! k = tokens' !! k) ->
  parse_ctf_long_text tokens = parse_ctf_long_text tokens'.
Proof.
  intros H. unfold parse_ctf_long_text, Py.index.
  rewrite (H 2%nat), (H 4%nat), (H 6%nat), (H 8%nat), (H 10%nat),
    (H 12%nat) by (rewrite !elem_of_cons; tauto).
  reflexivity.
Qed.

Lemma X17_long_text_reads_six_offsets_witness :
  parse_ctf_long_text
    (Py.split Py.TAB
       (tabbed [ "any"; "Coverage"; "100"; ""; "100"; "KV"; "0"; "Mag";
                 "20.7"; "x"; "70.0"; "y"; "0.5"; "trailing"; "tokens" ]))
  = parse_ctf_long_text
      (Py.split Py.TAB (long_text_line "20.7" "70.0" "0.5")).
Proof.
  apply X17_long_text_reads_six_offsets.
  intros k Hk. rewrite !elem_of_cons, elem_of_nil in Hk.
  destruct Hk as [->|[->|[->|[->|[->|[->|[]]]]]]];
    vm_compute; reflexivity.
Defined.

(** ** The decimal normaliser *)

(** X2.  [euro_to_us_dec_string] changes commas and nothing else: its
    result has the length of the text and holds no comma; a text without
    a comma is returned as it is, so that applying the function twice is
    applying it once; and it works part by part on a concatenation. *)
Theorem X2_euro_to_us_dec_string_normalises text :
  String.length (euro_to_us_dec_string text) = String.length text
  /\ ~ In ","%char (list_ascii_of_string (euro_to_us_dec_string text))
  /\ (~ In ","%char (list_ascii_of_string text) ->
      euro_to_us_dec_string text = text)
  /\ euro_to_us_dec_string (euro_to_us_dec_string text)
     = euro_to_us_dec_string text
  /\ (forall more,
        euro_to_us_dec_string (text ++ more)
        = euro_to_us_dec_string text ++ euro_to_us_dec_string more).
Proof.
  unfold euro_to_us_dec_string.
  split; [|split; [|split; [|split]]].
  - induction text as [|c s IH]; simpl; [done|]. by rewrite IH.
  - induction text as [|c s IH]; simpl; [tauto|].
    intros [H|H]; [|tauto].
    destruct (Ascii.eqb c ",") eqn:E; [discriminate|].
    apply Ascii.eqb_neq in E. congruence.
  - induction text as [|c s IH]; simpl; [done|]. intros H.
    rewrite IH by tauto.
    destruct (Ascii.eqb c ",") eqn:E; [|done].
    apply Ascii.eqb_eq in E. tauto.
  - apply euro_to_us_idemp.
  - intros more. apply replace_app.
Qed.

Lemma X2_euro_to_us_dec_string_normalises_witness :
  euro_to_us_dec_string "3.52;90" = "3.52;90".
Proof.
  destruct (X2_euro_to_us_dec_string_normalises "3.52;90")
    as (_ & _ & H & _).
  apply H. simpl. intros H'.
  repeat (destruct H' as [H'|H']; [discriminate|]). exact H'.
Defined.

(** ** The first and the last token of a stripped line *)

Lemma rstrip_with_last sp s :
  Py.rstrip_with sp s = ""
  \/ exists r c, Py.rstrip_with sp s = r ++ String c "" /\ sp c = false.
Proof.
  induction s as [|a s IH]; [by left|]. cbn [Py.rstrip_with].
  destruct IH as [->|(r & c & -> & Hc)].
  - destruct (sp a) eqn:Ha; [by left|]. right. by exists "", a.
  - right. exists (String a r), c. split; [|done]. by destruct r.
Qed.

Lemma rstrip_with_head sp c s :
  sp c = false -> exists r, Py.rstrip_with sp (String c s) = String c r.
Proof.
  intros Hc. cbn [Py.rstrip_with]. rewrite Hc.
  destruct (Py.rstrip_with sp s); by eexists.
Qed.

Lemma lstrip_with_head sp s :
  Py.lstrip_with sp s = ""
  \/ exists c r, Py.lstrip_with sp s = String c r /\ sp c = false.
Proof.
  induction s as [|a s IH]; [by left|]. cbn [Py.lstrip_with].
  destruct (sp a) eqn:Ha; [done|]. right. by exists a, s.
Qed.

Lemma string_app_inj_tail r s c d :
  r ++ String c "" = s ++ String d "" -> c = d.
Proof.
  revert s. induction r as [|a r IH]; intros [|b s] H.
  - by injection H.
  - injection H as _ H. by destruct s.
  - injection H as _ H. by destruct r.
  - injection H as _ H. by apply IH in H.
Qed.

Lemma split_last_empty sep s :
  last (Py.split sep s) = Some "" ->
  s = "" \/ exists s', s = s' ++ String sep "".
Proof.
  induction s as [|c s IH]; [by left|]. intros H. right.
  change (Py.split sep (String c s))
    with (if Ascii.eqb c sep then "" :: Py.split sep s
          else match Py.split sep s with
               | t :: ts => String c t :: ts
               | [] => [String c ""]
               end) in H.
  destruct (split_cons sep s) as (t & ts & E). rewrite E in IH, H.
  destruct (Ascii.eqb c sep) eqn:Hc.
  - apply Ascii.eqb_eq in Hc as ->. rewrite last_cons_cons in H.
    destruct (IH H) as [->|(s' & ->)]; [by exists ""|].
    by exists (String sep s').
  - destruct ts as [|u ts]; [discriminate|].
    rewrite last_cons_cons in H. rewrite last_cons_cons in IH.
    destruct (IH H) as [->|(s' & ->)]; [discriminate|].
    by exists (String c s').
Qed.

(** X20.  The line is stripped before it is split, and a tab is
    whitespace: unless the stripped line is empty, neither its first nor
    its last tab-separated token is empty.  A trailing empty field of a
    row or of a payload is therefore never seen as a field. *)
Theorem X20_outer_tokens_not_empty raw :
  Py.strip raw <> "" ->
  Py.split Py.TAB (Py.strip raw) !! 0%nat <> Some ""
  /\ last (Py.split Py.TAB (Py.strip raw)) <> Some "".
Proof.
  intros Hne. split.
  - intros H0. unfold Py.strip in *.
    destruct (lstrip_with_head Py.isspace raw) as [E|(c & r & E & Hc)];
      rewrite E in *; [done|].
    destruct (rstrip_with_head Py.isspace c r Hc) as [q Hq].
    rewrite Hq in H0.
    change (Py.split Py.TAB (String c q))
      with (if Ascii.eqb c Py.TAB then "" :: Py.split Py.TAB q
            else match Py.split Py.TAB q with
                 | t :: ts => String c t :: ts
                 | [] => [String c ""]
                 end) in H0.
    destruct (Ascii.eqb c Py.TAB) eqn:Ht.
    + apply Ascii.eqb_eq in Ht as ->. discriminate.
    + destruct (split_cons Py.TAB q) as (t & ts & Es). rewrite Es in H0.
      discriminate.
  - intros Hl. apply split_last_empty in Hl as [Hl|(s' & Hl)]; [done|].
    unfold Py.strip in *.
    destruct (rstrip_with_last Py.isspace (Py.lstrip_with Py.isspace raw))
      as [E|(r & c & E & Hc)]; [done|].
    rewrite E in Hl. apply string_app_inj_tail in Hl as ->. discriminate.
Qed.

Lemma X20_outer_tokens_not_empty_witness :
  Py.split Py.TAB
    (Py.strip (tabbed ["2.87;2.87;2.87"; "90;90;90"; "Iron"; "11"; "0";
                       ""; ""; ""]))
  = ["2.87;2.87;2.87"; "90;90;90"; "Iron"; "11"; "0"]
  /\ last (Py.split Py.TAB (Py.strip (tabbed ["XStep"; "  "])))
     <> Some "".
Proof.
  split; [reflexivity|].
  apply (X20_outer_tokens_not_empty (tabbed ["XStep"; "  "])).
  discriminate.
Defined.
